(** * lib/fs/basicfs_windows.go: the Windows side of BasicFilesystem

    A shallow embedding of [src/lib/fs/basicfs_windows.go] and the
    properties of it that the specification states.

    Go strings are byte strings; they are embedded as [string], whose
    characters are 8-bit [ascii] values.  [uint32] values are embedded
    as [Z]; the only arithmetic the file does on them is bitwise, which
    never leaves the 32-bit range, so no wrap-around is needed there.
    Calls into the operating system are embedded as the nodes of a
    program tree ([Prog]) and interpreted by a handler. *)

From Stdlib Require Import ZArith List Ascii String Bool Arith Lia.
From stdpp Require Import gmap strings.

Import ListNotations.
Local Open Scope string_scope.
Local Open Scope nat_scope.
Local Open Scope list_scope.

(** ** Go values *)

(** [s[i]]: the byte at index [i].  Every use below is preceded by the
    bounds test the Go code makes, so the default is never observed. *)
Definition byteAt (s : string) (i : nat) : ascii :=
  match String.get i s with
  | Some c => c
  | None => Ascii.zero
  end.

(** [s[a:b]] *)
Definition slice (s : string) (a b : nat) : string :=
  String.substring a (b - a) s.

(** [s[a:]] *)
Definition sliceFrom (s : string) (a : nat) : string :=
  String.substring a (String.length s - a) s.

Definition byte_eqb (a b : ascii) : bool := Ascii.eqb a b.

(** The package [strings] of the Go standard library. *)
Module strings.

(** [strings.HasPrefix(s, prefix)] *)
Definition HasPrefix (s prefix : string) : bool := String.prefix prefix s.

(** [strings.Contains(s, substr)]: [substr] occurs at some index of [s]. *)
Fixpoint Contains (s substr : string) : bool :=
  HasPrefix s substr ||
  match s with
  | EmptyString => false
  | String _ s' => Contains s' substr
  end.

(** [strings.TrimPrefix(s, prefix)] *)
Definition TrimPrefix (s prefix : string) : string :=
  if HasPrefix s prefix then sliceFrom s (String.length prefix) else s.

End strings.

(** The package [bytes]: [bytes.Split(s, sep)] for a separator of one
    byte.  It yields one more part than there are separators. *)
Module bytes.

Fixpoint Split (s : list ascii) (sep : ascii) : list (list ascii) :=
  match s with
  | [] => [[]]
  | c :: s' =>
      if byte_eqb c sep then [] :: Split s' sep
      else match Split s' sep with
           | [] => [[c]]
           | part :: parts => (c :: part) :: parts
           end
  end.

End bytes.

(** ** The package [path/filepath] on Windows

    The file is built for Windows only ([+build windows]), so the
    functions of [path/filepath] it calls are the Windows ones, here
    as in the Go releases of the time of the file (1.10 and 1.11):
    [path.go] and [path_windows.go] of the standard library. *)
Module filepath.

Definition Separator : ascii := "\"%char.

(** [os.IsPathSeparator] and [isSlash] *)
Definition isSlash (c : ascii) : bool :=
  byte_eqb c "\"%char || byte_eqb c "/"%char.

Definition isLetter (c : ascii) : bool :=
  let n := nat_of_ascii c in
  ((97 <=? n) && (n <=? 122)) || ((65 <=? n) && (n <=? 90)).

(** The inner loop of [volumeNameLen] over the share name:
    [for ; n < l; n++ { if isSlash(path[n]) { break } }]. *)
Fixpoint shareEnd (fuel : nat) (path : string) (l n : nat) : nat :=
  match fuel with
  | O => n
  | S fuel' =>
      if n <? l then
        if isSlash (byteAt path n) then n else shareEnd fuel' path l (S n)
      else n
  end.

(** The outer loop of [volumeNameLen] over the server name:
    [for n := 3; n < l-1; n++]. *)
Fixpoint uncLen (fuel : nat) (path : string) (l n : nat) : nat :=
  match fuel with
  | O => 0
  | S fuel' =>
      if n <? l - 1 then
        if isSlash (byteAt path n) then
          let n1 := S n in
          if negb (isSlash (byteAt path n1)) then
            if byte_eqb (byteAt path n1) "."%char then 0
            else shareEnd l path l n1
          else 0
        else uncLen fuel' path l (S n)
      else 0
  end.

(** [volumeNameLen]: the length of the leading volume name, a drive
    letter with its colon or the server and share of a UNC path. *)
Definition volumeNameLen (path : string) : nat :=
  let l := String.length path in
  if l <? 2 then 0
  else if byte_eqb (byteAt path 1) ":"%char && isLetter (byteAt path 0) then 2
  else if (5 <=? l) && isSlash (byteAt path 0) && isSlash (byteAt path 1)
          && negb (isSlash (byteAt path 2))
          && negb (byte_eqb (byteAt path 2) "."%char)
       then uncLen l path l 3
       else 0.

(** [filepath.VolumeName] *)
Definition VolumeName (path : string) : string :=
  slice path 0 (volumeNameLen path).

(** [filepath.FromSlash]: every [/] becomes the separator. *)
Fixpoint FromSlash (path : string) : string :=
  match path with
  | EmptyString => EmptyString
  | String c s => String (if byte_eqb c "/"%char then Separator else c) (FromSlash s)
  end.

(** The output buffer of [Clean] ([lazybuf]) holds the [w] bytes
    written so far; it is embedded as the list of those bytes. *)
Definition bufIndex (out : list ascii) (i : nat) : ascii :=
  nth i out Ascii.zero.

(** Backtracking over the last element written, for a [..] element:
    [out.w--; for out.w > dotdot && !IsPathSeparator(out.index(out.w)) { out.w-- }].
    [out] is the buffer before the first decrement, [w] the current
    write index. *)
Fixpoint backtrack (fuel : nat) (out : list ascii) (dotdot w : nat) : nat :=
  match fuel with
  | O => w
  | S fuel' =>
      if (dotdot <? w) && negb (isSlash (bufIndex out w))
      then backtrack fuel' out dotdot (w - 1)
      else w
  end.

(** Copying one element:
    [for ; r < n && !IsPathSeparator(path[r]); r++ { out.append(path[r]) }]. *)
Fixpoint copyElem (fuel : nat) (path : string) (n r : nat) (out : list ascii)
  : nat * list ascii :=
  match fuel with
  | O => (r, out)
  | S fuel' =>
      if (r <? n) && negb (isSlash (byteAt path r))
      then copyElem fuel' path n (S r) (out ++ [byteAt path r])
      else (r, out)
  end.

(** The main loop of [Clean], [for r < n { switch ... }]. *)
Fixpoint cleanLoop (fuel : nat) (path : string) (n : nat) (rooted : bool)
         (r dotdot : nat) (out : list ascii) : list ascii :=
  match fuel with
  | O => out
  | S fuel' =>
      if negb (r <? n) then out
      else if isSlash (byteAt path r) then
        (* empty path element *)
        cleanLoop fuel' path n rooted (S r) dotdot out
      else if byte_eqb (byteAt path r) "."%char
              && ((r + 1 =? n) || isSlash (byteAt path (r + 1))) then
        (* . element *)
        cleanLoop fuel' path n rooted (S r) dotdot out
      else if byte_eqb (byteAt path r) "."%char
              && byte_eqb (byteAt path (r + 1)) "."%char
              && ((r + 2 =? n) || isSlash (byteAt path (r + 2))) then
        (* .. element: remove to last separator *)
        let w := List.length out in
        if dotdot <? w then
          let w' := backtrack w out dotdot (w - 1) in
          cleanLoop fuel' path n rooted (r + 2) dotdot (firstn w' out)
        else if negb rooted then
          let out1 := if 0 <? w then out ++ [Separator] else out in
          let out2 := out1 ++ ["."%char; "."%char] in
          cleanLoop fuel' path n rooted (r + 2) (List.length out2) out2
        else cleanLoop fuel' path n rooted (r + 2) dotdot out
      else
        (* real path element; add slash if needed *)
        let w := List.length out in
        let out1 :=
          if (rooted && negb (w =? 1)) || (negb rooted && negb (w =? 0))
          then out ++ [Separator] else out in
        let '(r', out2) := copyElem n path n r out1 in
        cleanLoop fuel' path n rooted r' dotdot out2
  end.

(** [filepath.Clean] *)
Definition Clean (originalPath : string) : string :=
  let volLen := volumeNameLen originalPath in
  let path := sliceFrom originalPath volLen in
  if String.eqb path "" then
    if (1 <? volLen) && negb (byte_eqb (byteAt originalPath 1) ":"%char)
    then FromSlash originalPath (* should be UNC *)
    else originalPath +:+ "."
  else
    let rooted := isSlash (byteAt path 0) in
    let n := String.length path in
    let out := cleanLoop n path n rooted
                 (if rooted then 1 else 0) (if rooted then 1 else 0)
                 (if rooted then [Separator] else []) in
    let out' := match out with [] => ["."%char] | _ => out end in
    FromSlash (slice originalPath 0 volLen +:+ string_of_list_ascii out').

(** The scan of [Dir]:
    [for i >= len(vol) && !os.IsPathSeparator(path[i]) { i-- }];
    the result is [i+1], the end of the slice taken next. *)
Fixpoint dirEnd (path : string) (volLen : nat) (e : nat) : nat :=
  match e with
  | O => O
  | S i =>
      if (volLen <=? i) && negb (isSlash (byteAt path i))
      then dirEnd path volLen i
      else e
  end.

(** [filepath.Dir] *)
Definition Dir (path : string) : string :=
  let vol := VolumeName path in
  let e := dirEnd path (String.length vol) (String.length path) in
  let dir := Clean (slice path (String.length vol) e) in
  if String.eqb dir "." && (2 <? String.length vol) then vol (* must be UNC *)
  else vol +:+ dir.

(** Stripping trailing slashes in [Base]. *)
Fixpoint stripTrailing (path : string) (n : nat) : nat :=
  match n with
  | O => O
  | S i => if isSlash (byteAt path i) then stripTrailing path i else n
  end.

(** Finding the last element in [Base]:
    [for i >= 0 && !os.IsPathSeparator(path[i]) { i-- }]; the result
    is [i+1]. *)
Fixpoint lastElem (path : string) (e : nat) : nat :=
  match e with
  | O => O
  | S i => if negb (isSlash (byteAt path i)) then lastElem path i else e
  end.

(** [filepath.Base] *)
Definition Base (path : string) : string :=
  if String.eqb path "" then "."
  else
    let path1 := slice path 0 (stripTrailing path (String.length path)) in
    let path2 := sliceFrom path1 (String.length (VolumeName path1)) in
    let path3 := sliceFrom path2 (lastElem path2 (String.length path2)) in
    if String.eqb path3 "" then String Separator EmptyString
    else path3.

End filepath.

(** ** Errors and results *)

(** [syscall.Errno] on Windows: the codes the system reports, and
    [EINVAL], one of the codes Go invents for the POSIX names it has no
    system code for (values from [APPLICATION_ERROR] up, which the
    system never reports). *)
Inductive Errno : Type :=
| EINVAL
| WinErrno (code : Z).

(** The Go names for two codes of the system ([zerrors_windows.go] of
    package [syscall]): [ENOTDIR Errno = ERROR_PATH_NOT_FOUND]. *)
Definition ERROR_PATH_NOT_FOUND : Errno := WinErrno 3.
Definition ENOTDIR : Errno := ERROR_PATH_NOT_FOUND.

(** The values of the Go interface [error] that occur in the file. *)
Inductive error : Type :=
| ErrorString (msg : string)   (* errors.New, fmt.Errorf *)
| PathError (Op Path : string) (Err : Errno)   (* &os.PathError *)
| SyscallError (e : Errno).   (* a syscall.Errno *)

(** A Go result [(T, error)] of which the value is used only when the
    error is nil. *)
Inductive result (A : Type) : Type :=
| Ok (a : A)
| Err (e : error).
Arguments Ok {A} a.
Arguments Err {A} e.

(** [var errNotSupported = errors.New(...)] *)
Definition errNotSupported : error := ErrorString "symlinks not supported".

(** [os.FileInfo], of which the file uses [IsDir] only. *)
Record FileInfo : Type := mkFileInfo { IsDir : bool }.

(** File attribute constants of [syscall] and [windows]. *)
Definition FILE_ATTRIBUTE_HIDDEN : Z := 2.
Definition FILE_ATTRIBUTE_SYSTEM : Z := 4.

(** [syscall.UTF16PtrFromString] and [syscall.UTF16FromString] fail
    with [EINVAL] when the string holds a NUL byte.  The UTF-16 copy is
    only handed on to the system, so it is represented by the string it
    encodes. *)
Definition UTF16FromString (s : string) : result string :=
  if strings.Contains s (String Ascii.zero EmptyString)
  then Err (SyscallError EINVAL)
  else Ok s.

Definition UTF16PtrFromString (s : string) : result string := UTF16FromString s.

(** ** Calls into the operating system *)

(** The system calls of the file; the index is the type of what a call
    gives back.  [SysGetFileAttributes] gives back both results of
    [syscall.GetFileAttributes], the mask and the error.  [ProcCall]
    gives back the first result of [Proc.Call] and the contents of the
    buffer it was handed, as the call leaves them. *)
Inductive OSCall : Type -> Type :=
| Stat (path : string) : OSCall (result FileInfo)
| Lstat (path : string) : OSCall (result FileInfo)
| Mkdir (path : string) (perm : Z) : OSCall (option error)
| SysGetFileAttributes (p : string) : OSCall (Z * option error)
| SysSetFileAttributes (p : string) (attrs : Z) : OSCall (option error)
| LoadDLL (name : string) : OSCall (result Z)
| FindProc (dll : Z) (name : string) : OSCall (result Z)
| ProcCall (proc : Z) (bufferSize : Z) (buffer : list ascii) : OSCall (Z * list ascii).

(** A method body: it returns, or makes a system call and goes on with
    what the call gives back. *)
Inductive Prog (A : Type) : Type :=
| Ret (a : A)
| Call (R : Type) (c : OSCall R) (k : R -> Prog A).
Arguments Ret {A} a.
Arguments Call {A R} c k.

Fixpoint bind {A B : Type} (m : Prog A) (f : A -> Prog B) : Prog B :=
  match m with
  | Ret a => f a
  | Call c k => Call c (fun r => bind (k r) f)
  end.

(** An operating system over states [W] answers every call and moves
    to a next state. *)
Definition handler (W : Type) : Type := forall R : Type, OSCall R -> W -> R * W.

Fixpoint run {W A : Type} (h : handler W) (m : Prog A) (w : W) : A * W :=
  match m with
  | Ret a => (a, w)
  | Call c k => let '(r, w') := h _ c w in run h (k r) w'
  end.

(** The number of system calls a run makes. *)
Fixpoint calls {W A : Type} (h : handler W) (m : Prog A) (w : W) : nat :=
  match m with
  | Ret _ => 0
  | Call c k => let '(r, w') := h _ c w in S (calls h (k r) w')
  end.

(** ** The methods of [BasicFilesystem] *)

Record BasicFilesystem : Type := mkBasicFilesystem { root : string }.

(** *** Symbolic links (lines 23-35) *)

Definition SymlinksSupported (f : BasicFilesystem) : Prog bool := Ret false.

Definition ReadSymlink (f : BasicFilesystem) (path : string)
  : Prog (string * option error) :=
  Ret ("", Some errNotSupported).

Definition CreateSymlink (f : BasicFilesystem) (target name : string)
  : Prog (option error) :=
  Ret (Some errNotSupported).

Section Attributes.

(** [f.rooted], of [basicfs.go]: the collaborator that turns a name
    relative to the filesystem into a path under its root. *)
Variable rooted : BasicFilesystem -> string -> result string.

(** Lines 88-105. *)
Definition Unhide (f : BasicFilesystem) (name : string) : Prog (option error) :=
  match rooted f name with
  | Err err => Ret (Some err)
  | Ok name =>
      match UTF16PtrFromString name with
      | Err err => Ret (Some err)
      | Ok p =>
          Call (SysGetFileAttributes p) (fun '(attrs, err) =>
            match err with
            | Some err => Ret (Some err)
            | None =>
                let attrs := Z.ldiff attrs FILE_ATTRIBUTE_HIDDEN in
                Call (SysSetFileAttributes p attrs) Ret
            end)
      end
  end.

(** Lines 107-124. *)
Definition Hide (f : BasicFilesystem) (name : string) : Prog (option error) :=
  match rooted f name with
  | Err err => Ret (Some err)
  | Ok name =>
      match UTF16PtrFromString name with
      | Err err => Ret (Some err)
      | Ok p =>
          Call (SysGetFileAttributes p) (fun '(attrs, err) =>
            match err with
            | Some err => Ret (Some err)
            | None =>
                let attrs := Z.lor attrs FILE_ATTRIBUTE_HIDDEN in
                Call (SysSetFileAttributes p attrs) Ret
            end)
      end
  end.

(** Lines 127-139. *)
Definition SetFileAttributes (f : BasicFilesystem) (name : string) (attrs : Z)
  : Prog (option error) :=
  match rooted f name with
  | Err err => Ret (Some err)
  | Ok name =>
      match UTF16PtrFromString name with
      | Err err => Ret (Some err)
      | Ok p => Call (SysSetFileAttributes p attrs) Ret
      end
  end.

(** Lines 141-152. *)
Definition GetFileAttributes (f : BasicFilesystem) (name : string)
  : Prog (Z * option error) :=
  match rooted f name with
  | Err err => Ret (0%Z, Some err)
  | Ok name =>
      match UTF16PtrFromString name with
      | Err err => Ret (0%Z, Some err)
      | Ok p => Call (SysGetFileAttributes p) Ret
      end
  end.

(** The mask of the attributes that may be added (line 172); the
  source writes the not-content-indexed attribute as [0x00002000]. *)
Definition allowedAttrs : Z :=
  Z.lor (Z.lor FILE_ATTRIBUTE_HIDDEN FILE_ATTRIBUTE_SYSTEM) 0x2000.

(** Lines 155-174. *)
Definition AddFileAttributes (f : BasicFilesystem) (name : string) (newAttrs : Z)
  : Prog (option error) :=
  match rooted f name with
  | Err err => Ret (Some err)
  | Ok name =>
      match UTF16PtrFromString name with
      | Err err => Ret (Some err)
      | Ok p =>
          Call (SysGetFileAttributes p) (fun '(attrs, err) =>
            match err with
            | Some err => Ret (Some err)
            | None =>
                let newAttrs := Z.land newAttrs allowedAttrs in
                Call (SysSetFileAttributes p (Z.lor attrs newAttrs)) Ret
            end)
      end
  end.

End Attributes.

Section MkdirAll.

(** [IsPathSeparator] of package [fs], declared outside this file. *)
Variable IsPathSeparator : ascii -> bool.

(** Line 54: [for i > 0 && IsPathSeparator(path[i-1]) { i-- }]. *)
Fixpoint skipSeparators (path : string) (i : nat) : nat :=
  match i with
  | O => O
  | S i' => if IsPathSeparator (byteAt path i') then skipSeparators path i' else i
  end.

(** Line 59: [for j > 0 && !IsPathSeparator(path[j-1]) { j-- }]. *)
Fixpoint scanElement (path : string) (j : nat) : nat :=
  match j with
  | O => O
  | S j' => if negb (IsPathSeparator (byteAt path j')) then scanElement path j' else j
  end.

(** Lines 53-72, the slow path up to the creation of the parent:
    the error of the recursive call, or nil.  [self] stands for
    [f.mkdirAll]. *)
Definition createParent (self : string -> Z -> Prog (option error))
           (path : string) (perm : Z) : Prog (option error) :=
  let i := skipSeparators path (String.length path) in
  let j := scanElement path i in
  if 1 <? j then
    let parent := slice path 0 (j - 1) in
    if negb (String.eqb parent (filepath.VolumeName parent))
    then self parent perm
    else Ret None
  else Ret None.

(** Lines 74-85: the direct [os.Mkdir] and the second look. *)
Definition mkdirDirect (path : string) (perm : Z) : Prog (option error) :=
  Call (Mkdir path perm) (fun err =>
    match err with
    | Some err =>
        Call (Lstat path) (fun r1 =>
          match r1 with
          | Ok dir => if IsDir dir then Ret None else Ret (Some err)
          | Err _ => Ret (Some err)
          end)
    | None => Ret None
    end).

(** The body of [mkdirAll] (lines 38-86) over the function it calls
    for the parent. *)
Definition mkdirAllBody (self : string -> Z -> Prog (option error))
           (path : string) (perm : Z) : Prog (option error) :=
  Call (Stat path) (fun r =>
    match r with
    | Ok dir =>
        if IsDir dir then Ret None
        else Ret (Some (PathError "mkdir" path ENOTDIR))
    | Err _ =>
        bind (createParent self path perm) (fun err =>
          match err with
          | Some err => Ret (Some err)
          | None => mkdirDirect path perm
          end)
    end).

(** The recursion of [mkdirAll] is on a proper prefix of [path], so
    [String.length path] unfoldings below the first are enough; the
    case of no fuel is never reached from [mkdirAll]
    (see [mkdirAll_unfold]). *)
Fixpoint mkdirAllFuel (fuel : nat) (path : string) (perm : Z) : Prog (option error) :=
  match fuel with
  | O => mkdirAllBody (fun _ _ => Ret None) path perm
  | S fuel' => mkdirAllBody (mkdirAllFuel fuel') path perm
  end.

Definition mkdirAll (f : BasicFilesystem) (path : string) (perm : Z)
  : Prog (option error) :=
  mkdirAllFuel (String.length path) path perm.

End MkdirAll.

(** *** Roots (lines 176-204) *)

(** [string(part)] *)
Definition stringOfBytes (part : list ascii) : string := string_of_list_ascii part.

(** Lines 194-201: the parts up to the first empty one. *)
Fixpoint collectDrives (parts : list (list ascii)) : list string :=
  match parts with
  | [] => []
  | part :: parts' =>
      if List.length part =? 0 then []
      else stringOfBytes part :: collectDrives parts'
  end.

(** [buffer := [1024]byte{}] *)
Definition emptyBuffer : list ascii := repeat Ascii.zero 1024.

(** [bufferSize := uint32(len(buffer))] *)
Definition bufferLen : Z := Z.of_nat (List.length emptyBuffer).

Definition Roots (f : BasicFilesystem) : Prog (list string * option error) :=
  Call (LoadDLL "kernel32.dll") (fun r =>
    match r with
    | Err err => Ret ([], Some err)
    | Ok kernel32 =>
        Call (FindProc kernel32 "GetLogicalDriveStringsA") (fun r =>
          match r with
          | Err err => Ret ([], Some err)
          | Ok getLogicalDriveStringsHandle =>
              let bufferSize := bufferLen in
              Call (ProcCall getLogicalDriveStringsHandle bufferSize emptyBuffer)
                (fun '(hr, buffer) =>
                   if (hr =? 0)%Z then Ret ([], Some (ErrorString "Syscall failed"))
                   else
                     let parts := bytes.Split buffer Ascii.zero in
                     Ret (collectDrives parts, None))
          end)
    end).

(** *** Short names (lines 206-240) *)

Section Win83.

(** [WindowsTempPrefix], a constant of package [fs] declared outside
    this file. *)
Variable WindowsTempPrefix : string.

(** [syscall.GetLongPathName(&in[0], &out[0], cch)] on one state of
    the file system: the path asked about and the length of the
    buffer give the count [n] and the contents of the buffer after
    the call, or an error. *)
Variable GetLongPathName : string -> Z -> result (Z * list Z).

(** [utf16.Decode] followed by the conversion to a string, of the Go
    standard library. *)
Variable utf16Decode : list Z -> string.

(** Lines 232-240. *)
Definition isMaybeWin83 (absPath : string) : bool :=
  if negb (strings.Contains absPath "~") then false
  else if strings.Contains (filepath.Dir absPath) "~" then true
  else strings.Contains
         (strings.TrimPrefix (filepath.Base absPath) WindowsTempPrefix) "~".

(** [syscall.UTF16ToString]: the code units before the first NUL,
    decoded. *)
Fixpoint untilNUL (s : list Z) : list Z :=
  match s with
  | [] => []
  | v :: s' => if (v =? 0)%Z then [] else v :: untilNUL s'
  end.

Definition UTF16ToString (s : list Z) : string := utf16Decode (untilNUL s).

(** [uint32(len(out))] *)
Definition uint32 (n : Z) : Z := (n mod 2 ^ 32)%Z.

(** Lines 210-221: the long path as the system gives it, or nothing
    when the query fails. *)
Definition queryLongPath (absPath : string) : option string :=
  match UTF16FromString absPath with
  | Ok inp =>
      let lenOut := (4 * Z.of_nat (String.length absPath))%Z in
      match GetLongPathName inp (uint32 lenOut) with
      | Ok (n, out) =>
          if (n <=? uint32 lenOut)%Z then Some (UTF16ToString (firstn (Z.to_nat n) out))
          else
            match GetLongPathName inp n with
            | Ok (_, out) => Some (UTF16ToString out)
            | Err _ => None
            end
      | Err _ => None
      end
  | Err _ => None
  end.

(** Lines 224-229, entered with [absPath] already replaced by its
    directory: the loop tests the prefix, then the candidate, and
    steps to the directory.  [None] when [fuel] iterations did not
    leave the loop. *)
Fixpoint walkUp (fuel : nat) (f : BasicFilesystem) (absPath : string) : option string :=
  match fuel with
  | O => None
  | S fuel' =>
      if strings.HasPrefix absPath (root f) then
        if negb (isMaybeWin83 absPath) then Some absPath
        else walkUp fuel' f (filepath.Dir absPath)
      else Some (root f)
  end.

(** Lines 206-230. *)
Definition resolveWin83 (fuel : nat) (f : BasicFilesystem) (absPath : string)
  : option string :=
  if negb (isMaybeWin83 absPath) then Some absPath
  else
    match queryLongPath absPath with
    | Some long => Some long
    | None => walkUp fuel f (filepath.Dir absPath)
    end.

End Win83.

(** ** Models of the collaborators, for concrete runs *)

(** A method returns [a] without a system call: on every operating
    system and in every state the run gives [a], leaves the state as it
    was and makes no call. *)
Definition returnsAtOnce {A : Type} (m : Prog A) (a : A) : Prop :=
  forall (W : Type) (h : handler W) (w : W),
    run h m w = (a, w) /\ calls h m w = 0.

(** Modelled from the spec: [rooted] is not in this file; the spec
    (section 6) says it joins the name under the configured root and
    rejects escapes such as [..].  This one joins with a separator and
    rejects every name that starts with two dots. *)
Definition sampleRooted (f : BasicFilesystem) (name : string) : result string :=
  if strings.HasPrefix name ".." then Err (ErrorString "invalid filename")
  else Ok (root f +:+ "\" +:+ name).

Definition ERROR_FILE_NOT_FOUND : Errno := WinErrno 2.
Definition ERROR_CALL_NOT_IMPLEMENTED : Errno := WinErrno 120.
Definition ERROR_ALREADY_EXISTS : Errno := WinErrno 183.
Definition INVALID_FILE_ATTRIBUTES : Z := 0xFFFFFFFF.

(** The attribute store: the files that exist, each with its attribute
    mask.  Reading gives the mask of an existing file, writing replaces
    it, both fail on a file that does not exist; the calls that are not
    about attributes are not served. *)
Definition attrStore : handler (gmap string Z) :=
  fun R c =>
    match c in OSCall R return gmap string Z -> R * gmap string Z with
    | SysGetFileAttributes p => fun w =>
        match w !! p with
        | Some m => ((m, None), w)
        | None => ((INVALID_FILE_ATTRIBUTES, Some (SyscallError ERROR_FILE_NOT_FOUND)), w)
        end
    | SysSetFileAttributes p attrs => fun w =>
        match w !! p with
        | Some _ => (None, <[p := attrs]> w)
        | None => (Some (SyscallError ERROR_FILE_NOT_FOUND), w)
        end
    | Stat _ => fun w => (Err (SyscallError ERROR_CALL_NOT_IMPLEMENTED), w)
    | Lstat _ => fun w => (Err (SyscallError ERROR_CALL_NOT_IMPLEMENTED), w)
    | Mkdir _ _ => fun w => (Some (SyscallError ERROR_CALL_NOT_IMPLEMENTED), w)
    | LoadDLL _ => fun w => (Err (SyscallError ERROR_CALL_NOT_IMPLEMENTED), w)
    | FindProc _ _ => fun w => (Err (SyscallError ERROR_CALL_NOT_IMPLEMENTED), w)
    | ProcCall _ _ buffer => fun w => ((0%Z, buffer), w)
    end.

(** The bits of the mask that [AddFileAttributes] may set: hidden is
    bit 1, system bit 2, not-content-indexed bit 13. *)
Definition isAddableBit (i : Z) : bool :=
  ((i =? 1) || (i =? 2) || (i =? 13))%Z.

(** Hide and then Unhide, the second whatever the first returned. *)
Definition hideThenUnhide (rooted : BasicFilesystem -> string -> result string)
           (f : BasicFilesystem) (name : string) : Prog (option error) :=
  bind (Hide rooted f name) (fun _ => Unhide rooted f name).

(** Sample data for concrete runs. *)
Definition dataFS : BasicFilesystem := {| root := "C:\data" |}.

Definition dataStore (m : Z) : gmap string Z := {[ "C:\data\a.txt" := m ]}.

(** An operating system in which another actor makes the directory
    between the first look and the direct mkdir: the first look finds
    nothing, the mkdir fails because the directory is there, the second
    look finds a directory. *)
Definition racedOS : handler unit :=
  fun R c =>
    match c in OSCall R return unit -> R * unit with
    | Stat path => fun w => (Err (PathError "CreateFile" path ERROR_FILE_NOT_FOUND), w)
    | Lstat _ => fun w => (Ok (mkFileInfo true), w)
    | Mkdir path _ => fun w => (Some (PathError "mkdir" path ERROR_ALREADY_EXISTS), w)
    | SysGetFileAttributes _ => fun w =>
        ((INVALID_FILE_ATTRIBUTES, Some (SyscallError ERROR_CALL_NOT_IMPLEMENTED)), w)
    | SysSetFileAttributes _ _ => fun w => (Some (SyscallError ERROR_CALL_NOT_IMPLEMENTED), w)
    | LoadDLL _ => fun w => (Err (SyscallError ERROR_CALL_NOT_IMPLEMENTED), w)
    | FindProc _ _ => fun w => (Err (SyscallError ERROR_CALL_NOT_IMPLEMENTED), w)
    | ProcCall _ _ buffer => fun w => ((0%Z, buffer), w)
    end.

(** An operating system in which every path is a plain file. *)
Definition plainFileOS : handler unit :=
  fun R c =>
    match c in OSCall R return unit -> R * unit with
    | Stat _ => fun w => (Ok (mkFileInfo false), w)
    | Lstat _ => fun w => (Ok (mkFileInfo false), w)
    | Mkdir path _ => fun w => (Some (PathError "mkdir" path ERROR_ALREADY_EXISTS), w)
    | SysGetFileAttributes _ => fun w =>
        ((INVALID_FILE_ATTRIBUTES, Some (SyscallError ERROR_CALL_NOT_IMPLEMENTED)), w)
    | SysSetFileAttributes _ _ => fun w => (Some (SyscallError ERROR_CALL_NOT_IMPLEMENTED), w)
    | LoadDLL _ => fun w => (Err (SyscallError ERROR_CALL_NOT_IMPLEMENTED), w)
    | FindProc _ _ => fun w => (Err (SyscallError ERROR_CALL_NOT_IMPLEMENTED), w)
    | ProcCall _ _ buffer => fun w => ((0%Z, buffer), w)
    end.

(** The result of the second look of [mkdirAll] after a direct mkdir
    that failed with [err] (lines 79-83). *)
Definition afterFailedMkdir (err : error) (r1 : result FileInfo) : option error :=
  match r1 with
  | Ok dir => if IsDir dir then None else Some err
  | Err _ => Some err
  end.

(** A drive string as the system writes it: not empty, no NUL in it. *)
Definition validDrive (d : list ascii) : bool :=
  negb (List.length d =? 0) && negb (existsb (fun c => byte_eqb c Ascii.zero) d).

(** The multi-string the system writes for the drives [ds]: each drive
    with a NUL after it, and one more NUL at the end. *)
Definition multiString (ds : list (list ascii)) : list ascii :=
  concat (map (fun d => d ++ [Ascii.zero]) ds) ++ [Ascii.zero].

(** An operating system with the drives C: and D:. *)
Definition twoDrives : list (list ascii) :=
  [list_ascii_of_string "C:\"; list_ascii_of_string "D:\"].

Definition drivesOS : handler unit :=
  fun R c =>
    match c in OSCall R return unit -> R * unit with
    | Stat _ => fun w => (Err (SyscallError ERROR_CALL_NOT_IMPLEMENTED), w)
    | Lstat _ => fun w => (Err (SyscallError ERROR_CALL_NOT_IMPLEMENTED), w)
    | Mkdir _ _ => fun w => (Some (SyscallError ERROR_CALL_NOT_IMPLEMENTED), w)
    | SysGetFileAttributes _ => fun w =>
        ((INVALID_FILE_ATTRIBUTES, Some (SyscallError ERROR_CALL_NOT_IMPLEMENTED)), w)
    | SysSetFileAttributes _ _ => fun w => (Some (SyscallError ERROR_CALL_NOT_IMPLEMENTED), w)
    | LoadDLL _ => fun w => (Ok 1%Z, w)
    | FindProc _ _ => fun w => (Ok 2%Z, w)
    | ProcCall _ _ _ => fun w =>
        ((8%Z, multiString twoDrives ++ repeat Ascii.zero 1015), w)
    end.

(** The [k]-th directory above a path: [filepath.Dir] applied [k] times. *)
Fixpoint ancestor (k : nat) (path : string) : string :=
  match k with
  | O => path
  | S k' => ancestor k' (filepath.Dir path)
  end.

(** Modelled from the spec: [WindowsTempPrefix] is declared outside
    this file; the spec calls it a known temporary-file prefix.  The
    sample runs take this value for it. *)
Definition sampleTempPrefix : string := "~syncthing~".

(** Code units and strings of ASCII characters, for the sample runs. *)
Definition asciiDecode (s : list Z) : string :=
  string_of_list_ascii (map (fun v => ascii_of_nat (Z.to_nat v)) s).

Definition asciiEncode (s : string) : list Z :=
  map (fun c => Z.of_nat (nat_of_ascii c)) (list_ascii_of_string s).

(** A file system on which no long path is known: every query fails. *)
Definition noLongPath (inp : string) (cch : Z) : result (Z * list Z) :=
  Err (SyscallError ERROR_FILE_NOT_FOUND).

(** A file system on which one short path exists,
    [C:\PROGRA~1\sync], whose long path is [C:\Program Files\sync]:
    the query writes the long path and a NUL and gives its length when
    the buffer can hold them, and gives the length it needs otherwise;
    it fails for every other path. *)
Definition programFilesOS (inp : string) (cch : Z) : result (Z * list Z) :=
  if String.eqb inp "C:\PROGRA~1\sync" then
    let long := asciiEncode "C:\Program Files\sync" in
    let n := Z.of_nat (List.length long) in
    if (n <? cch)%Z
    then Ok (n, long ++ repeat 0%Z (Z.to_nat (cch - n)))
    else Ok ((n + 1)%Z, repeat 0%Z (Z.to_nat cch))
  else Err (SyscallError ERROR_FILE_NOT_FOUND).

Definition shortRootFS : BasicFilesystem := {| root := "C:\PROGRA~1\sync" |}.
Definition longRootFS : BasicFilesystem := {| root := "C:\Program Files\sync" |}.

(** A filesystem at the top of a share whose name has a tilde. *)
Definition shareFS : BasicFilesystem := {| root := "\\nas\pub~1\" |}.

(** ** Observations on runs *)

(** One method and then another, whatever the first returned. *)
Definition thenDo {A B : Type} (m : Prog A) (k : Prog B) : Prog B :=
  bind m (fun _ => k).

(** The operating system [h] with a counter of the calls it served. *)
Definition counting {W : Type} (h : handler W) : handler (W * nat) :=
  fun R c s =>
    let '(w, n) := s in
    let '(r, w') := h R c w in
    (r, (w', S n)).

(** Every system call a run makes satisfies [P]. *)
Fixpoint allCalls {W A : Type} (P : forall R : Type, OSCall R -> bool)
         (h : handler W) (m : Prog A) (w : W) : bool :=
  match m with
  | Ret _ => true
  | Call c k => P _ c && (let '(r, w') := h _ c w in allCalls P h (k r) w')
  end.

(** A look at, or a mkdir of, a path that is a prefix of [path]. *)
Definition onPrefixOf (path : string) (R : Type) (c : OSCall R) : bool :=
  match c with
  | Stat p => String.prefix p path
  | Lstat p => String.prefix p path
  | Mkdir p _ => String.prefix p path
  | _ => false
  end.

(** A read or a write of the attributes of the file [p]. *)
Definition onAttributesOf (p : string) (R : Type) (c : OSCall R) : bool :=
  match c with
  | SysGetFileAttributes q => String.eqb q p
  | SysSetFileAttributes q _ => String.eqb q p
  | _ => false
  end.

(** The string of the one byte NUL. *)
Definition NUL : string := String Ascii.zero EmptyString.

(** A handler that serves the attribute calls from a script: every
    read fails with access denied. *)
Definition deniedOS : handler unit :=
  fun R c =>
    match c in OSCall R return unit -> R * unit with
    | Stat _ => fun w => (Err (SyscallError ERROR_CALL_NOT_IMPLEMENTED), w)
    | Lstat _ => fun w => (Err (SyscallError ERROR_CALL_NOT_IMPLEMENTED), w)
    | Mkdir path _ => fun w => (Some (PathError "mkdir" path (WinErrno 5)), w)
    | SysGetFileAttributes _ => fun w =>
        ((INVALID_FILE_ATTRIBUTES, Some (SyscallError (WinErrno 5))), w)
    | SysSetFileAttributes _ _ => fun w => (Some (SyscallError (WinErrno 5)), w)
    | LoadDLL _ => fun w => (Err (SyscallError ERROR_CALL_NOT_IMPLEMENTED), w)
    | FindProc _ _ => fun w => (Err (SyscallError ERROR_CALL_NOT_IMPLEMENTED), w)
    | ProcCall _ _ buffer => fun w => ((0%Z, buffer), w)
    end.

(** The parts of a split put together again, the separator between
    them. *)
Fixpoint joinParts (parts : list (list ascii)) (sep : ascii) : list ascii :=
  match parts with
  | [] => []
  | part :: parts' =>
      match parts' with
      | [] => part
      | _ :: _ => part ++ sep :: joinParts parts' sep
      end
  end.

(** The drive strings [ds], each with a NUL after it. *)
Definition terminated (ds : list string) : list ascii :=
  concat (map (fun d => list_ascii_of_string d ++ [Ascii.zero]) ds).

(** A drive string as [Roots] returns it: not empty, no NUL in it. *)
Definition wellFormedDrive (d : string) : Prop :=
  d <> EmptyString /\ ~ In Ascii.zero (list_ascii_of_string d).

(** A name with a NUL byte in it, for the sample runs. *)
Definition nulName : string := "a" +:+ NUL.

(** A file system that is a set of directories, named by their paths
    as written: a look finds a directory when the path is in the set,
    a mkdir adds the path and fails when it is there already.
    Directories are never removed. *)
Definition dirSetOS : handler (gset string) :=
  fun R c =>
    match c in OSCall R return gset string -> R * gset string with
    | Stat p => fun w =>
        if decide (p ∈ w) then (Ok (mkFileInfo true), w)
        else (Err (PathError "CreateFile" p ERROR_FILE_NOT_FOUND), w)
    | Lstat p => fun w =>
        if decide (p ∈ w) then (Ok (mkFileInfo true), w)
        else (Err (PathError "CreateFile" p ERROR_FILE_NOT_FOUND), w)
    | Mkdir p _ => fun w =>
        if decide (p ∈ w) then (Some (PathError "mkdir" p ERROR_ALREADY_EXISTS), w)
        else (None, {[p]} ∪ w)
    | SysGetFileAttributes _ => fun w =>
        ((INVALID_FILE_ATTRIBUTES, Some (SyscallError ERROR_CALL_NOT_IMPLEMENTED)), w)
    | SysSetFileAttributes _ _ => fun w => (Some (SyscallError ERROR_CALL_NOT_IMPLEMENTED), w)
    | LoadDLL _ => fun w => (Err (SyscallError ERROR_CALL_NOT_IMPLEMENTED), w)
    | FindProc _ _ => fun w => (Err (SyscallError ERROR_CALL_NOT_IMPLEMENTED), w)
    | ProcCall _ _ buffer => fun w => ((0%Z, buffer), w)
    end.

(** On the system [h] a directory that was seen or made stays: after a
    Stat or an Lstat that found a directory at a path, or a Mkdir of
    the path that succeeded, a Stat of the path in the state the call
    left finds a directory and leaves the state as it is. *)
Definition directoriesStay {W : Type} (h : handler W) : Prop :=
  forall (p : string) (s s' : W),
    ((exists dir : FileInfo, h _ (Stat p) s = (Ok dir, s') /\ IsDir dir = true) \/
     (exists perm : Z, h _ (Mkdir p perm) s = (None, s')) \/
     (exists dir : FileInfo, h _ (Lstat p) s = (Ok dir, s') /\ IsDir dir = true)) ->
    exists dir' : FileInfo, h _ (Stat p) s' = (Ok dir', s') /\ IsDir dir' = true.

(** An operating system on which no path is found: every look and
    every mkdir fails with the code for a path that is not found, as
    on a drive that is not there. *)
Definition pathNotFoundOS : handler unit :=
  fun R c =>
    match c in OSCall R return unit -> R * unit with
    | Stat path => fun w => (Err (PathError "CreateFile" path ERROR_PATH_NOT_FOUND), w)
    | Lstat path => fun w => (Err (PathError "CreateFile" path ERROR_PATH_NOT_FOUND), w)
    | Mkdir path _ => fun w => (Some (PathError "mkdir" path ERROR_PATH_NOT_FOUND), w)
    | SysGetFileAttributes _ => fun w =>
        ((INVALID_FILE_ATTRIBUTES, Some (SyscallError ERROR_PATH_NOT_FOUND)), w)
    | SysSetFileAttributes _ _ => fun w => (Some (SyscallError ERROR_PATH_NOT_FOUND), w)
    | LoadDLL _ => fun w => (Err (SyscallError ERROR_CALL_NOT_IMPLEMENTED), w)
    | FindProc _ _ => fun w => (Err (SyscallError ERROR_CALL_NOT_IMPLEMENTED), w)
    | ProcCall _ _ buffer => fun w => ((0%Z, buffer), w)
    end.

(** A path is inside the root, as a directory: it is the root, or the
    root followed by a separator and more.  A root that ends with a
    separator has under it every path that begins with it. *)
Definition insideRoot (rootPath path : string) : bool :=
  strings.HasPrefix path rootPath &&
  ((String.length path =? String.length rootPath)
   || filepath.isSlash (byteAt path (String.length rootPath))
   || ((0 <? String.length rootPath)
       && filepath.isSlash (byteAt rootPath (String.length rootPath - 1)))).

(** * Properties *)

(** ** The model of [path/filepath]

    Rows of the tables of the tests of the Go standard library for
    Windows ([path_test.go]), as a check of the model. *)

Example VolumeName_rows :
  map filepath.VolumeName
      ["c:/foo/bar"; "2:"; "\\\host\share"; "\\host"; "\\host\";
       "\\host\share"; "//host/share/foo"; "\\host\share\foo\..\bar"]
  = ["c:"; ""; ""; ""; ""; "\\host\share"; "//host/share"; "\\host\share"].
Proof. reflexivity. Qed.

Example Clean_rows :
  map filepath.Clean
      ["c:"; "c:\"; "c:abc\..\..\.\.\..\def"; "c:\abc\def\..\.."; "c:\..\abc";
       "/"; "\\i\..\c$"; "\\host\share\foo\..\bar"; "//host/share/foo/../baz";
       "\\a\b"; ""; "abc/def/../../../ghi/jkl/../../../mno"]
  = ["c:."; "c:\"; "c:..\..\def"; "c:\"; "c:\abc";
     "\"; "\c$"; "\\host\share\bar"; "\\host\share\baz";
     "\\a\b"; "."; "..\..\mno"].
Proof. reflexivity. Qed.

Example Dir_rows :
  map filepath.Dir
      ["c:\"; "c:."; "c:\a\b"; "c:a\b"; "c:a\b\c"; "\\host\share";
       "\\host\share\"; "\\host\share\a"; "\\host\share\a\b"; ""; "abc"]
  = ["c:\"; "c:."; "c:\a"; "c:a"; "c:a\b"; "\\host\share";
     "\\host\share\"; "\\host\share\"; "\\host\share\a"; "."; "."].
Proof. reflexivity. Qed.

Example Base_rows :
  map filepath.Base
      ["c:\"; "c:."; "c:\a\b"; "c:a\b\c"; "\\host\share\"; "\\host\share\a";
       ""; "////"; "a/b/c.x"]
  = ["\"; "."; "b"; "c"; "\"; "a"; "."; "\"; "c.x"].
Proof. reflexivity. Qed.

(** ** Symbolic links *)

(** C9: [SymlinksSupported] returns false, and [ReadSymlink] and
    [CreateSymlink] return the one error [errNotSupported], for every
    path, target and name, without a system call and without a change
    of state. *)
Theorem symlinks_not_supported (f : BasicFilesystem) (p target name : string) :
  returnsAtOnce (SymlinksSupported f) false /\
  returnsAtOnce (ReadSymlink f p) ("", Some errNotSupported) /\
  returnsAtOnce (CreateSymlink f target name) (Some errNotSupported) /\
  errNotSupported = ErrorString "symlinks not supported".
Proof.
  repeat split.
Qed.

(** ** Attributes *)

Lemma returnsAtOnce_Ret {A : Type} (a : A) : returnsAtOnce (Ret a) a.
Proof. intros W h w. split; reflexivity. Qed.

Lemma allowedAttrs_bits (i : Z) : Z.testbit allowedAttrs i = isAddableBit i.
Proof.
  destruct (Z_lt_le_dec i 0) as [Hneg | Hnn].
  - rewrite Z.testbit_neg_r by assumption.
    unfold isAddableBit.
    repeat match goal with |- context [(?a =? ?b)%Z] =>
      destruct (Z.eqb_spec a b); [lia |] end.
    reflexivity.
  - destruct (Z_lt_le_dec i 14) as [Hlt | Hge].
    + assert (Hi : In i [0; 1; 2; 3; 4; 5; 6; 7; 8; 9; 10; 11; 12; 13]%Z)
        by (simpl; lia).
      simpl in Hi.
      repeat (destruct Hi as [<- | Hi]; [reflexivity |]).
      contradiction.
    + rewrite Z.bits_above_log2.
      * unfold isAddableBit.
        repeat match goal with |- context [(?a =? ?b)%Z] =>
          destruct (Z.eqb_spec a b); [lia |] end.
        reflexivity.
      * vm_compute. discriminate.
      * change (Z.log2 allowedAttrs) with 13%Z. lia.
Qed.

Section AttributeProps.

Variable rooted : BasicFilesystem -> string -> result string.

  (** C8: when [rooted] fails, each of the five attribute operations
      returns the error of [rooted] itself, makes no system call and
      leaves the state of the system as it was. *)
Theorem rooted_failure_returns_at_once
          (f : BasicFilesystem) (name : string) (attrs : Z) (e : error) :
    rooted f name = Err e ->
    returnsAtOnce (GetFileAttributes rooted f name) (0%Z, Some e) /\
    returnsAtOnce (SetFileAttributes rooted f name attrs) (Some e) /\
    returnsAtOnce (AddFileAttributes rooted f name attrs) (Some e) /\
    returnsAtOnce (Hide rooted f name) (Some e) /\
    returnsAtOnce (Unhide rooted f name) (Some e).
Proof.
    intros Hr.
    unfold GetFileAttributes, SetFileAttributes, AddFileAttributes, Hide, Unhide.
    rewrite Hr.
    repeat split; apply returnsAtOnce_Ret.
Qed.

  (** C1: on every operating system [AddFileAttributes] reads the mask
      of the file, and writes back that mask ORed with the requested
      mask restricted to hidden, system and not-content-indexed.  In
      the attribute store the call succeeds on an existing file, and
      reading the mask afterwards gives a mask whose bits 1, 2 and 13
      are the union of the old bit and the requested bit and whose
      other bits are the old ones. *)
Theorem AddFileAttributes_adds
          (f : BasicFilesystem) (name p : string) (newAttrs m : Z)
          (w : gmap string Z) :
    rooted f name = Ok p ->
    UTF16PtrFromString p = Ok p ->
    w !! p = Some m ->
    let m' := Z.lor m (Z.land newAttrs allowedAttrs) in
    (forall (W : Type) (h : handler W) (s s1 : W) (cur : Z),
        h _ (SysGetFileAttributes p) s = ((cur, None), s1) ->
        run h (AddFileAttributes rooted f name newAttrs) s =
        h _ (SysSetFileAttributes p (Z.lor cur (Z.land newAttrs allowedAttrs))) s1) /\
    run attrStore (AddFileAttributes rooted f name newAttrs) w = (None, <[p := m']> w) /\
    run attrStore (GetFileAttributes rooted f name) (<[p := m']> w)
      = ((m', None), <[p := m']> w) /\
    (forall i : Z,
        Z.testbit m' i =
        if isAddableBit i then Z.testbit m i || Z.testbit newAttrs i
        else Z.testbit m i).
Proof.
    intros Hr Hp Hw m'.
    split; [| split; [| split]].
    - intros W h s s1 cur Hget.
      unfold AddFileAttributes. rewrite Hr, Hp. simpl.
      rewrite Hget. simpl.
      destruct (h _ (SysSetFileAttributes p _) s1) as [r s2].
      reflexivity.
    - unfold AddFileAttributes. rewrite Hr, Hp. simpl.
      rewrite Hw. simpl. rewrite Hw. reflexivity.
    - unfold GetFileAttributes. rewrite Hr, Hp. simpl.
      rewrite lookup_insert_eq. reflexivity.
    - intros i. unfold m'.
      rewrite Z.lor_spec, Z.land_spec, allowedAttrs_bits.
      destruct (isAddableBit i), (Z.testbit m i), (Z.testbit newAttrs i);
        reflexivity.
Qed.

End AttributeProps.

Lemma run_bind {W A B : Type} (h : handler W) (m : Prog A) (k : A -> Prog B) (w : W) :
  run h (bind m k) w = let '(a, w') := run h m w in run h (k a) w'.
Proof.
  revert w. induction m as [a | R c k' IH]; intros w; simpl.
  - reflexivity.
  - destruct (h R c w) as [r w']. apply IH.
Qed.

Lemma ldiff_lor_hidden (m : Z) :
  Z.ldiff (Z.lor m FILE_ATTRIBUTE_HIDDEN) FILE_ATTRIBUTE_HIDDEN
  = Z.ldiff m FILE_ATTRIBUTE_HIDDEN.
Proof.
  apply Z.bits_inj'. intros i _.
  rewrite !Z.ldiff_spec, Z.lor_spec.
  destruct (Z.testbit m i), (Z.testbit FILE_ATTRIBUTE_HIDDEN i); reflexivity.
Qed.

Lemma hidden_bit (i : Z) : Z.testbit FILE_ATTRIBUTE_HIDDEN i = (i =? 1)%Z.
Proof.
  change FILE_ATTRIBUTE_HIDDEN with (2 ^ 1)%Z.
  destruct (Z.eqb_spec i 1) as [-> | Hne].
  - reflexivity.
  - apply Z.pow2_bits_false. congruence.
Qed.

Lemma ldiff_hidden_id (m : Z) :
  Z.ldiff m FILE_ATTRIBUTE_HIDDEN = m <-> Z.testbit m 1 = false.
Proof.
  split.
  - intros Heq.
    assert (Hb : Z.testbit (Z.ldiff m FILE_ATTRIBUTE_HIDDEN) 1 = Z.testbit m 1)
      by (rewrite Heq; reflexivity).
    rewrite Z.ldiff_spec, hidden_bit in Hb.
    destruct (Z.testbit m 1); [discriminate Hb | reflexivity].
  - intros Hb. apply Z.bits_inj'. intros i _.
    rewrite Z.ldiff_spec, hidden_bit.
    destruct (Z.eqb_spec i 1) as [-> | Hne].
    + rewrite Hb. reflexivity.
    + apply andb_true_r.
Qed.

Section HideProps.

Variable rooted : BasicFilesystem -> string -> result string.

Lemma hideThenUnhide_run
      (f : BasicFilesystem) (name p : string) (m : Z) (w : gmap string Z) :
  rooted f name = Ok p ->
  UTF16PtrFromString p = Ok p ->
  w !! p = Some m ->
  run attrStore (hideThenUnhide rooted f name) w
    = (None, <[p := Z.ldiff m FILE_ATTRIBUTE_HIDDEN]> w).
Proof.
  intros Hr Hp Hw.
  unfold hideThenUnhide. rewrite run_bind.
  unfold Hide, Unhide. rewrite Hr, Hp. simpl.
  rewrite Hw. simpl. rewrite Hw. simpl.
  rewrite lookup_insert_eq. simpl. rewrite lookup_insert_eq.
  rewrite insert_insert_eq, ldiff_lor_hidden. reflexivity.
Qed.

(** C2 (amended): in the attribute store, Hide and then Unhide on an
    existing file both succeed and leave the file with its original
    mask less the hidden bit; all other files keep their masks.  The
    original mask is restored exactly when, and only when, its hidden
    bit was clear before the Hide. *)
Theorem Hide_then_Unhide_clears_hidden
        (f : BasicFilesystem) (name p : string) (m : Z) (w : gmap string Z) :
  rooted f name = Ok p ->
  UTF16PtrFromString p = Ok p ->
  w !! p = Some m ->
  run attrStore (hideThenUnhide rooted f name) w
    = (None, <[p := Z.ldiff m FILE_ATTRIBUTE_HIDDEN]> w) /\
  (Z.testbit m 1 = false ->
     snd (run attrStore (hideThenUnhide rooted f name) w) = w) /\
  (Z.testbit m 1 = true ->
     snd (run attrStore (hideThenUnhide rooted f name) w) !! p <> Some m).
Proof.
  intros Hr Hp Hw.
  rewrite (hideThenUnhide_run f name p m w Hr Hp Hw). cbn [snd].
  split; [reflexivity | split].
  - intros Hb. apply (proj2 (ldiff_hidden_id m)) in Hb. rewrite Hb.
    apply insert_id. exact Hw.
  - intros Hb Heq. rewrite lookup_insert_eq in Heq.
    injection Heq as Heq. apply ldiff_hidden_id in Heq.
    rewrite Heq in Hb. discriminate Hb.
Qed.

End HideProps.

Lemma dataStore_lookup (m : Z) : dataStore m !! "C:\data\a.txt" = Some m.
Proof. unfold dataStore. apply lookup_singleton_eq. Qed.

Lemma rooted_failure_returns_at_once_witness :
  sampleRooted dataFS "..\x" = Err (ErrorString "invalid filename") /\
  returnsAtOnce (Hide sampleRooted dataFS "..\x")
                (Some (ErrorString "invalid filename")).
Proof.
  split; [reflexivity |].
  exact (proj1 (proj2 (proj2 (proj2
    (rooted_failure_returns_at_once sampleRooted dataFS "..\x" 0
       (ErrorString "invalid filename") eq_refl))))).
Defined.

Lemma AddFileAttributes_adds_witness :
  sampleRooted dataFS "a.txt" = Ok "C:\data\a.txt" /\
  UTF16PtrFromString "C:\data\a.txt" = Ok "C:\data\a.txt" /\
  dataStore 0x20 !! "C:\data\a.txt" = Some 0x20%Z /\
  run attrStore (AddFileAttributes sampleRooted dataFS "a.txt" 0x2007) (dataStore 0x20)
  = (None, <["C:\data\a.txt" := 0x2026%Z]> (dataStore 0x20)).
Proof.
  split; [reflexivity | split; [reflexivity | split; [apply dataStore_lookup |]]].
  exact (proj1 (proj2
    (AddFileAttributes_adds sampleRooted dataFS "a.txt" "C:\data\a.txt" 0x2007 0x20
       (dataStore 0x20) eq_refl eq_refl (dataStore_lookup 0x20)))).
Defined.

(** C2, as stated, fails: a file that is hidden already (mask 2) has
    mask 0 after Hide and then Unhide. *)
Lemma Hide_then_Unhide_loses_hidden :
  dataStore 2 !! "C:\data\a.txt" = Some 2%Z /\
  snd (run attrStore (hideThenUnhide sampleRooted dataFS "a.txt") (dataStore 2))
    !! "C:\data\a.txt" = Some 0%Z /\
  snd (run attrStore (hideThenUnhide sampleRooted dataFS "a.txt") (dataStore 2))
    <> dataStore 2.
Proof.
  assert (Hrun : snd (run attrStore (hideThenUnhide sampleRooted dataFS "a.txt")
                          (dataStore 2)) !! "C:\data\a.txt" = Some 0%Z).
  { rewrite (hideThenUnhide_run sampleRooted dataFS "a.txt" "C:\data\a.txt" 2
               (dataStore 2) eq_refl eq_refl (dataStore_lookup 2)).
    cbn [snd]. apply lookup_insert_eq. }
  split; [apply dataStore_lookup | split; [exact Hrun |]].
  intros Heq. rewrite Heq, dataStore_lookup in Hrun. discriminate.
Qed.

Lemma Hide_then_Unhide_clears_hidden_witness :
  sampleRooted dataFS "a.txt" = Ok "C:\data\a.txt" /\
  UTF16PtrFromString "C:\data\a.txt" = Ok "C:\data\a.txt" /\
  dataStore 0x20 !! "C:\data\a.txt" = Some 0x20%Z /\
  run attrStore (hideThenUnhide sampleRooted dataFS "a.txt") (dataStore 0x20)
  = (None, <["C:\data\a.txt" := 0x20%Z]> (dataStore 0x20)).
Proof.
  split; [reflexivity | split; [reflexivity | split; [apply dataStore_lookup |]]].
  exact (proj1
    (Hide_then_Unhide_clears_hidden sampleRooted dataFS "a.txt" "C:\data\a.txt" 0x20
       (dataStore 0x20) eq_refl eq_refl (dataStore_lookup 0x20))).
Defined.

(** ** mkdirAll *)

Lemma substring_length_le (a n : nat) (s : string) :
  String.length (String.substring a n s) <= n.
Proof.
  revert a n. induction s as [| c s IH]; intros a n.
  - destruct a, n; simpl; lia.
  - destruct a as [| a].
    + destruct n as [| n]; simpl; [lia |].
      specialize (IH 0 n). lia.
    + simpl. apply IH.
Qed.

Section MkdirAllProps.

Variable IsPathSeparator : ascii -> bool.

Lemma skipSeparators_le (path : string) (i : nat) :
  skipSeparators IsPathSeparator path i <= i.
Proof.
  induction i as [| i IH]; simpl; [lia |].
  destruct (IsPathSeparator (byteAt path i)); lia.
Qed.

Lemma scanElement_le (path : string) (j : nat) :
  scanElement IsPathSeparator path j <= j.
Proof.
  induction j as [| j IH]; simpl; [lia |].
  destruct (negb (IsPathSeparator (byteAt path j))); lia.
Qed.

(** The parent that [createParent] recurses on is shorter than the path. *)
Lemma createParent_ext (self1 self2 : string -> Z -> Prog (option error))
      (path : string) (perm : Z) (W : Type) (h : handler W) :
  (forall (p : string) (w : W),
      String.length p < String.length path ->
      run h (self1 p perm) w = run h (self2 p perm) w) ->
  forall w : W,
    run h (createParent IsPathSeparator self1 path perm) w
    = run h (createParent IsPathSeparator self2 path perm) w.
Proof.
  intros Hself w. unfold createParent.
  set (i := skipSeparators IsPathSeparator path (String.length path)).
  set (j := scanElement IsPathSeparator path i).
  destruct (Nat.ltb_spec 1 j) as [Hj | Hj]; [| reflexivity].
  destruct (negb _); [| reflexivity].
  apply Hself.
  pose proof (substring_length_le 0 (j - 1 - 0) path) as Hlen.
  pose proof (scanElement_le path i) as Hji.
  pose proof (skipSeparators_le path (String.length path)) as Hil.
  unfold slice. fold i in Hil. fold j in Hji. lia.
Qed.

Lemma mkdirAllBody_ext (self1 self2 : string -> Z -> Prog (option error))
      (path : string) (perm : Z) (W : Type) (h : handler W) :
  (forall (p : string) (w : W),
      String.length p < String.length path ->
      run h (self1 p perm) w = run h (self2 p perm) w) ->
  forall w : W,
    run h (mkdirAllBody IsPathSeparator self1 path perm) w
    = run h (mkdirAllBody IsPathSeparator self2 path perm) w.
Proof.
  intros Hself w. unfold mkdirAllBody. simpl.
  destruct (h _ (Stat path) w) as [[dir | e] w0]; [reflexivity |].
  rewrite !run_bind.
  rewrite (createParent_ext self1 self2 path perm W h Hself w0).
  reflexivity.
Qed.

(** Fuel beyond the length of the path changes nothing. *)
Lemma mkdirAllFuel_stable (perm : Z) (W : Type) (h : handler W) (n : nat) :
  forall (path : string) (w : W),
    String.length path <= n ->
    run h (mkdirAllFuel IsPathSeparator n path perm) w
    = run h (mkdirAllFuel IsPathSeparator (String.length path) path perm) w.
Proof.
  induction n as [n IH] using lt_wf_ind.
  intros path w Hlen.
  destruct n as [| n], (String.length path) as [| l] eqn:Hl;
    try lia; try reflexivity; simpl.
  - apply mkdirAllBody_ext. intros p w' Hp. lia.
  - apply mkdirAllBody_ext. intros p w' Hp.
    rewrite (IH n (Nat.lt_succ_diag_r n) p w') by lia.
    rewrite (IH l ltac:(lia) p w') by lia.
    reflexivity.
Qed.

(** [mkdirAll] runs as its body, with itself for the parent. *)
Lemma mkdirAll_unfold (f : BasicFilesystem) (path : string) (perm : Z)
      (W : Type) (h : handler W) (w : W) :
  run h (mkdirAll IsPathSeparator f path perm) w
  = run h (mkdirAllBody IsPathSeparator (mkdirAll IsPathSeparator f) path perm) w.
Proof.
  unfold mkdirAll at 1.
  destruct (String.length path) as [| l] eqn:Hl; simpl.
  - apply mkdirAllBody_ext. intros p w' Hp. lia.
  - apply mkdirAllBody_ext. intros p w' Hp.
    unfold mkdirAll. apply mkdirAllFuel_stable. lia.
Qed.

(** C5 (amended): when the first look finds the path, [mkdirAll]
    makes no other system call; it returns nil when the entry is a
    directory, and otherwise the [PathError] of a mkdir of the path
    with [ENOTDIR], which on Windows is the code of the system for a
    path that is not found. *)
Theorem mkdirAll_existing
        (f : BasicFilesystem) (path : string) (perm : Z)
        (W : Type) (h : handler W) (w w1 : W) (dir : FileInfo) :
  h _ (Stat path) w = (Ok dir, w1) ->
  run h (mkdirAll IsPathSeparator f path perm) w
    = ((if IsDir dir then None else Some (PathError "mkdir" path ENOTDIR)), w1) /\
  calls h (mkdirAll IsPathSeparator f path perm) w = 1 /\
  PathError "mkdir" path ENOTDIR = PathError "mkdir" path ERROR_PATH_NOT_FOUND.
Proof.
  intros Hstat. split; [| split].
  - rewrite mkdirAll_unfold. unfold mkdirAllBody. simpl. rewrite Hstat.
    destruct (IsDir dir); reflexivity.
  - unfold mkdirAll.
    destruct (String.length path); simpl; rewrite Hstat;
      destruct (IsDir dir); reflexivity.
  - reflexivity.
Qed.

(** C4: when the first look fails, the parent is in place and the
    direct mkdir fails with [err], [mkdirAll] looks again with Lstat:
    it returns nil if that look finds a directory, and [err], the
    error of the mkdir, in every other case, also when the second look
    fails with an error of its own. *)
Theorem mkdirAll_mkdir_fails
        (f : BasicFilesystem) (path : string) (perm : Z)
        (W : Type) (h : handler W) (w w0 w1 w2 w3 : W)
        (e0 err : error) (r1 : result FileInfo) :
  h _ (Stat path) w = (Err e0, w0) ->
  run h (createParent IsPathSeparator (mkdirAll IsPathSeparator f) path perm) w0
    = (None, w1) ->
  h _ (Mkdir path perm) w1 = (Some err, w2) ->
  h _ (Lstat path) w2 = (r1, w3) ->
  run h (mkdirAll IsPathSeparator f path perm) w = (afterFailedMkdir err r1, w3) /\
  (forall dir : FileInfo,
      r1 = Ok dir -> IsDir dir = true -> afterFailedMkdir err r1 = None) /\
  (forall dir : FileInfo,
      r1 = Ok dir -> IsDir dir = false -> afterFailedMkdir err r1 = Some err) /\
  (forall e1 : error, r1 = Err e1 -> afterFailedMkdir err r1 = Some err).
Proof.
  intros Hstat Hparent Hmkdir Hlstat.
  split; [| split; [| split]].
  - rewrite mkdirAll_unfold. unfold mkdirAllBody. simpl. rewrite Hstat.
    rewrite run_bind, Hparent. unfold mkdirDirect. simpl.
    rewrite Hmkdir. simpl. rewrite Hlstat.
    unfold afterFailedMkdir.
    destruct r1 as [dir | e1]; [destruct (IsDir dir) |]; reflexivity.
  - intros dir -> Hd. simpl. rewrite Hd. reflexivity.
  - intros dir -> Hd. simpl. rewrite Hd. reflexivity.
  - intros e1 ->. reflexivity.
Qed.

End MkdirAllProps.

(** Three levels under a volume: each level is a first look, a mkdir
    and a second look. *)
Example mkdirAll_three_levels :
  run racedOS (mkdirAll filepath.isSlash dataFS "C:\a\b\c" 493) tt = (None, tt) /\
  calls racedOS (mkdirAll filepath.isSlash dataFS "C:\a\b\c" 493) tt = 9.
Proof. split; reflexivity. Qed.

Lemma mkdirAll_existing_witness :
  plainFileOS _ (Stat "C:\data\a.txt") tt = (Ok (mkFileInfo false), tt) /\
  run plainFileOS (mkdirAll filepath.isSlash dataFS "C:\data\a.txt" 493) tt
  = (Some (PathError "mkdir" "C:\data\a.txt" ENOTDIR), tt).
Proof.
  split; [reflexivity |].
  exact (proj1 (mkdirAll_existing filepath.isSlash dataFS "C:\data\a.txt" 493
                  unit plainFileOS tt tt (mkFileInfo false) eq_refl)).
Defined.

(** C5, as stated, fails: the error for an entry that is no directory
    is not distinct from the failures of the system.  For the same
    path, [mkdirAll] returns one and the same error on a system where
    the path is a plain file and on a system where nothing is found
    and the direct mkdir fails with the code for a path not found. *)
Lemma mkdirAll_not_a_directory_is_path_not_found :
  plainFileOS _ (Stat "C:\a.txt") tt = (Ok (mkFileInfo false), tt) /\
  run plainFileOS (mkdirAll filepath.isSlash dataFS "C:\a.txt" 493) tt
    = (Some (PathError "mkdir" "C:\a.txt" (WinErrno 3)), tt) /\
  pathNotFoundOS _ (Stat "C:\a.txt") tt
    = (Err (PathError "CreateFile" "C:\a.txt" (WinErrno 3)), tt) /\
  pathNotFoundOS _ (Mkdir "C:\a.txt" 493) tt
    = (Some (PathError "mkdir" "C:\a.txt" (WinErrno 3)), tt) /\
  run pathNotFoundOS (mkdirAll filepath.isSlash dataFS "C:\a.txt" 493) tt
    = (Some (PathError "mkdir" "C:\a.txt" (WinErrno 3)), tt).
Proof.
  repeat split.
Qed.

Lemma mkdirAll_mkdir_fails_witness :
  racedOS _ (Stat "C:\d") tt
    = (Err (PathError "CreateFile" "C:\d" ERROR_FILE_NOT_FOUND), tt) /\
  run racedOS (createParent filepath.isSlash (mkdirAll filepath.isSlash dataFS)
                            "C:\d" 493) tt = (None, tt) /\
  racedOS _ (Mkdir "C:\d" 493) tt
    = (Some (PathError "mkdir" "C:\d" ERROR_ALREADY_EXISTS), tt) /\
  racedOS _ (Lstat "C:\d") tt = (Ok (mkFileInfo true), tt) /\
  run racedOS (mkdirAll filepath.isSlash dataFS "C:\d" 493) tt = (None, tt).
Proof.
  repeat (split; [reflexivity |]).
  exact (proj1 (mkdirAll_mkdir_fails filepath.isSlash dataFS "C:\d" 493
                  unit racedOS tt tt tt tt tt
                  (PathError "CreateFile" "C:\d" ERROR_FILE_NOT_FOUND)
                  (PathError "mkdir" "C:\d" ERROR_ALREADY_EXISTS)
                  (Ok (mkFileInfo true)) eq_refl eq_refl eq_refl eq_refl)).
Defined.

(** ** Roots *)

Lemma Split_app_sep (d rest : list ascii) (sep : ascii) :
  existsb (fun c => byte_eqb c sep) d = false ->
  bytes.Split (d ++ sep :: rest) sep = d :: bytes.Split rest sep.
Proof.
  induction d as [| c d IH]; simpl; intros Hd.
  - unfold byte_eqb. rewrite Ascii.eqb_refl. reflexivity.
  - apply orb_false_iff in Hd as [Hc Hd].
    rewrite Hc, (IH Hd). reflexivity.
Qed.

Lemma collectDrives_multiString (ds : list (list ascii)) (rest : list ascii) :
  forallb validDrive ds = true ->
  collectDrives (bytes.Split (multiString ds ++ rest) Ascii.zero)
  = map stringOfBytes ds.
Proof.
  unfold multiString.
  induction ds as [| d ds IH]; intros Hds.
  - reflexivity.
  - simpl in Hds. apply andb_true_iff in Hds as [Hd Hds].
    unfold validDrive in Hd. apply andb_true_iff in Hd as [Hne Hnul].
    apply negb_true_iff in Hnul.
    change (concat (map (fun d0 => d0 ++ [Ascii.zero]) (d :: ds)))
      with ((d ++ [Ascii.zero]) ++ concat (map (fun d0 => d0 ++ [Ascii.zero]) ds)).
    rewrite <- !app_assoc. simpl app at 2.
    rewrite (Split_app_sep d _ Ascii.zero Hnul).
    simpl. apply negb_true_iff in Hne. rewrite Hne.
    f_equal. rewrite <- (IH Hds), <- app_assoc. reflexivity.
Qed.

(** The loop of [Roots] returns the parts before the first empty one. *)
Lemma collectDrives_prefix (parts : list (list ascii)) :
  exists k : nat,
    collectDrives parts = map stringOfBytes (firstn k parts) /\
    Forall (fun part => part <> []) (firstn k parts) /\
    k <= List.length parts /\
    (k < List.length parts -> nth_error parts k = Some []).
Proof.
  induction parts as [| part parts (k & Heq & Hne & Hk & Hstop)].
  - exists 0. repeat split; simpl; try constructor; lia.
  - destruct part as [| c part].
    + exists 0. repeat split; simpl; try constructor; lia.
    + exists (S k). simpl. repeat split.
      * rewrite Heq. reflexivity.
      * constructor; [discriminate | exact Hne].
      * lia.
      * intros Hlt. apply Hstop. lia.
Qed.

(** A failure to find the library or the entry point is returned. *)
Lemma Roots_load_failure
      (f : BasicFilesystem) (W : Type) (h : handler W) (w w1 : W) (e : error) :
  h _ (LoadDLL "kernel32.dll") w = (Err e, w1) ->
  run h (Roots f) w = (([], Some e), w1).
Proof.
  intros Hload. unfold Roots. cbn [run]. rewrite Hload. reflexivity.
Qed.

Lemma Roots_find_failure
      (f : BasicFilesystem) (W : Type) (h : handler W) (w w1 w2 : W)
      (dll : Z) (e : error) :
  h _ (LoadDLL "kernel32.dll") w = (Ok dll, w1) ->
  h _ (FindProc dll "GetLogicalDriveStringsA") w1 = (Err e, w2) ->
  run h (Roots f) w = (([], Some e), w2).
Proof.
  intros Hload Hfind. unfold Roots. cbn [run]. rewrite Hload.
  cbn [run]. rewrite Hfind. reflexivity.
Qed.

(** C7: when the library and the entry point are found and the call
    gives [hr] and the buffer: for [hr = 0] [Roots] returns an error;
    otherwise it returns, without error, the parts of the buffer
    between NUL bytes that come before the first empty part, in the
    order of the buffer.  So a buffer that holds drive strings, each
    followed by a NUL, and then a further NUL, gives those drive
    strings, and a buffer that begins with a NUL gives the empty
    sequence and no error. *)
Theorem Roots_splits_buffer
        (f : BasicFilesystem) (W : Type) (h : handler W) (w w1 w2 w3 : W)
        (dll proc hr : Z) (buffer : list ascii) :
  h _ (LoadDLL "kernel32.dll") w = (Ok dll, w1) ->
  h _ (FindProc dll "GetLogicalDriveStringsA") w1 = (Ok proc, w2) ->
  h _ (ProcCall proc bufferLen emptyBuffer) w2 = ((hr, buffer), w3) ->
  (hr = 0%Z ->
     run h (Roots f) w = (([], Some (ErrorString "Syscall failed")), w3)) /\
  (hr <> 0%Z ->
     exists k : nat,
       let parts := bytes.Split buffer Ascii.zero in
       run h (Roots f) w = ((map stringOfBytes (firstn k parts), None), w3) /\
       Forall (fun part => part <> []) (firstn k parts) /\
       k <= List.length parts /\
       (k < List.length parts -> nth_error parts k = Some [])) /\
  (hr <> 0%Z ->
     forall (ds : list (list ascii)) (rest : list ascii),
       forallb validDrive ds = true ->
       buffer = multiString ds ++ rest ->
       run h (Roots f) w = ((map stringOfBytes ds, None), w3)) /\
  (hr <> 0%Z ->
     forall rest : list ascii,
       buffer = Ascii.zero :: rest ->
       run h (Roots f) w = (([], None), w3)).
Proof.
  intros Hload Hfind Hcall.
  assert (Hrun : run h (Roots f) w
                 = ((if (hr =? 0)%Z
                     then ([], Some (ErrorString "Syscall failed"))
                     else (collectDrives (bytes.Split buffer Ascii.zero), None)), w3)).
  { unfold Roots. cbn [run]. rewrite Hload. cbn [run]. rewrite Hfind.
    cbn [run]. rewrite Hcall. destruct (hr =? 0)%Z; reflexivity. }
  rewrite Hrun.
  split; [| split; [| split]].
  - intros ->. reflexivity.
  - intros Hhr. apply Z.eqb_neq in Hhr. rewrite Hhr.
    destruct (collectDrives_prefix (bytes.Split buffer Ascii.zero))
      as (k & Heq & Hrest).
    exists k. cbv zeta. rewrite Heq. split; [reflexivity | exact Hrest].
  - intros Hhr ds rest Hds ->. apply Z.eqb_neq in Hhr. rewrite Hhr.
    rewrite (collectDrives_multiString ds rest Hds). reflexivity.
  - intros Hhr rest ->. apply Z.eqb_neq in Hhr. rewrite Hhr.
    reflexivity.
Qed.

Lemma Roots_splits_buffer_witness :
  drivesOS _ (LoadDLL "kernel32.dll") tt = (Ok 1%Z, tt) /\
  drivesOS _ (FindProc 1 "GetLogicalDriveStringsA") tt = (Ok 2%Z, tt) /\
  drivesOS _ (ProcCall 2 bufferLen emptyBuffer) tt
    = ((8%Z, multiString twoDrives ++ repeat Ascii.zero 1015), tt) /\
  8%Z <> 0%Z /\
  forallb validDrive twoDrives = true /\
  run drivesOS (Roots dataFS) tt = ((["C:\"; "D:\"], None), tt).
Proof.
  assert (H8 : 8%Z <> 0%Z) by discriminate.
  repeat (split; [reflexivity || exact H8 |]).
  exact (proj1 (proj2 (proj2
    (Roots_splits_buffer dataFS unit drivesOS tt tt tt tt 1 2 8
       (multiString twoDrives ++ repeat Ascii.zero 1015)
       eq_refl eq_refl eq_refl))) H8 twoDrives (repeat Ascii.zero 1015)
    eq_refl eq_refl).
Defined.

(** ** Short names *)

Lemma HasPrefix_refl (s : string) : strings.HasPrefix s s = true.
Proof.
  unfold strings.HasPrefix.
  induction s as [| c s IH]; simpl; [reflexivity |].
  destruct (ascii_dec c c) as [_ | Hne]; [exact IH | contradiction].
Qed.

Section Win83Props.

Variable WindowsTempPrefix : string.
Variable GetLongPathName : string -> Z -> result (Z * list Z).
Variable utf16Decode : list Z -> string.

Local Abbreviation isMaybe := (isMaybeWin83 WindowsTempPrefix).
Local Abbreviation query := (queryLongPath GetLongPathName utf16Decode).
Local Abbreviation walk := (walkUp WindowsTempPrefix).
Local Abbreviation resolve := (resolveWin83 WindowsTempPrefix GetLongPathName utf16Decode).

(** The walk returns the first directory, counted from where it
    starts, that is under the root and is no candidate. *)
Lemma walkUp_found (f : BasicFilesystem) (k : nat) :
  forall (fuel : nat) (p : string),
    k < fuel ->
    (forall j : nat, j < k ->
        strings.HasPrefix (ancestor j p) (root f) = true /\
        isMaybe (ancestor j p) = true) ->
    strings.HasPrefix (ancestor k p) (root f) = true ->
    isMaybe (ancestor k p) = false ->
    walk fuel f p = Some (ancestor k p).
Proof.
  induction k as [| k IH]; intros fuel p Hfuel Hbelow Hpre Hcand.
  - destruct fuel as [| fuel]; [lia |]. simpl in *.
    rewrite Hpre, Hcand. reflexivity.
  - destruct fuel as [| fuel]; [lia |].
    destruct (Hbelow 0 ltac:(lia)) as [Hp0 Hc0]. simpl in Hp0, Hc0.
    simpl. rewrite Hp0, Hc0. simpl.
    apply IH; [lia | | exact Hpre | exact Hcand].
    intros j Hj. apply (Hbelow (S j)). lia.
Qed.

(** The walk returns the root when it comes to a directory that is not
    under the root before it finds one that is no candidate. *)
Lemma walkUp_left (f : BasicFilesystem) (k : nat) :
  forall (fuel : nat) (p : string),
    k < fuel ->
    (forall j : nat, j < k ->
        strings.HasPrefix (ancestor j p) (root f) = true /\
        isMaybe (ancestor j p) = true) ->
    strings.HasPrefix (ancestor k p) (root f) = false ->
    walk fuel f p = Some (root f).
Proof.
  induction k as [| k IH]; intros fuel p Hfuel Hbelow Hpre.
  - destruct fuel as [| fuel]; [lia |]. simpl in *.
    rewrite Hpre. reflexivity.
  - destruct fuel as [| fuel]; [lia |].
    destruct (Hbelow 0 ltac:(lia)) as [Hp0 Hc0]. simpl in Hp0, Hc0.
    simpl. rewrite Hp0, Hc0. simpl.
    apply IH; [lia | | exact Hpre].
    intros j Hj. apply (Hbelow (S j)). lia.
Qed.

(** Whatever the walk returns is the root, or a directory above the
    start that is under the root and no candidate. *)
Lemma walkUp_result (f : BasicFilesystem) (fuel : nat) :
  forall (p r : string),
    walk fuel f p = Some r ->
    strings.HasPrefix r (root f) = true /\
    (r = root f \/
     exists k : nat, r = ancestor k p /\ isMaybe r = false).
Proof.
  induction fuel as [| fuel IH]; intros p r Hw; simpl in Hw; [discriminate |].
  destruct (strings.HasPrefix p (root f)) eqn:Hpre.
  - destruct (isMaybe p) eqn:Hcand; simpl in Hw.
    + destruct (IH _ _ Hw) as [Hr [Hroot | (k & Hk & Hc)]].
      * split; [exact Hr | left; exact Hroot].
      * split; [exact Hr | right; exists (S k); split; assumption].
    + injection Hw as <-.
      split; [exact Hpre | right; exists 0; split; [reflexivity | exact Hcand]].
  - injection Hw as <-.
    split; [apply HasPrefix_refl | left; reflexivity].
Qed.

(** At a directory that is its own directory, is under the root and is
    a candidate, the walk never leaves the loop. *)
Lemma walkUp_fixed_point (f : BasicFilesystem) (d : string) :
  filepath.Dir d = d ->
  strings.HasPrefix d (root f) = true ->
  isMaybe d = true ->
  forall fuel : nat, walk fuel f d = None.
Proof.
  intros Hfix Hpre Hcand fuel.
  induction fuel as [| fuel IH]; simpl; [reflexivity |].
  rewrite Hpre, Hcand, Hfix. exact IH.
Qed.

(** C3 (amended): for a candidate path whose long path the system
    does not give, [resolveWin83] steps up through the directories
    above the path as long as they begin with the bytes of the root.
    It returns the first of them that is no candidate, if all
    directories up to it begin with the root; it returns the root if,
    before that, the walk comes to a directory that does not begin
    with the root; and whatever it returns begins with the bytes of
    the root, being the root itself or a directory above the path that
    is no candidate. *)
Theorem resolveWin83_fallback (f : BasicFilesystem) (absPath : string) :
  isMaybe absPath = true ->
  query absPath = None ->
  (forall k fuel : nat,
      k < fuel ->
      (forall j : nat, j < k ->
          strings.HasPrefix (ancestor (S j) absPath) (root f) = true /\
          isMaybe (ancestor (S j) absPath) = true) ->
      strings.HasPrefix (ancestor (S k) absPath) (root f) = true ->
      isMaybe (ancestor (S k) absPath) = false ->
      resolve fuel f absPath = Some (ancestor (S k) absPath)) /\
  (forall k fuel : nat,
      k < fuel ->
      (forall j : nat, j < k ->
          strings.HasPrefix (ancestor (S j) absPath) (root f) = true /\
          isMaybe (ancestor (S j) absPath) = true) ->
      strings.HasPrefix (ancestor (S k) absPath) (root f) = false ->
      resolve fuel f absPath = Some (root f)) /\
  (forall (fuel : nat) (r : string),
      resolve fuel f absPath = Some r ->
      strings.HasPrefix r (root f) = true /\
      (r = root f \/
       exists k : nat, r = ancestor (S k) absPath /\ isMaybe r = false)).
Proof.
  intros Hcand Hquery.
  assert (Hres : forall fuel,
             resolve fuel f absPath = walk fuel f (filepath.Dir absPath)).
  { intros fuel. unfold resolveWin83. rewrite Hcand, Hquery. reflexivity. }
  split; [| split].
  - intros k fuel Hfuel Hbelow Hpre Hc. rewrite Hres.
    apply (walkUp_found f k fuel (filepath.Dir absPath) Hfuel Hbelow Hpre Hc).
  - intros k fuel Hfuel Hbelow Hpre. rewrite Hres.
    apply (walkUp_left f k fuel (filepath.Dir absPath) Hfuel Hbelow Hpre).
  - intros fuel r Hr. rewrite Hres in Hr.
    apply (walkUp_result f fuel (filepath.Dir absPath) r Hr).
Qed.

(** C6 (amended): when the system gives back unchanged every long path
    it has given, and the root is no candidate or is a path the system
    gives back unchanged, [resolveWin83] applied to a result of
    [resolveWin83] returns that result. *)
Theorem resolveWin83_idempotent_on_long_root (f : BasicFilesystem) :
  (forall p long : string,
      query p = Some long -> isMaybe long = true -> query long = Some long) ->
  isMaybe (root f) = false \/ query (root f) = Some (root f) ->
  forall (fuel fuel' : nat) (p r : string),
    resolve fuel f p = Some r ->
    resolve fuel' f r = Some r.
Proof.
  intros Hos Hroot fuel fuel' p r Hr.
  assert (Hfix : isMaybe r = false \/ query r = Some r).
  { unfold resolveWin83 in Hr.
    destruct (isMaybe p) eqn:Hcand; simpl in Hr.
    - destruct (query p) as [long |] eqn:Hq.
      + injection Hr as <-.
        destruct (isMaybe long) eqn:Hl; [right | left; reflexivity].
        exact (Hos p long Hq Hl).
      + destruct (walkUp_result f fuel _ _ Hr) as [_ [-> | (k & _ & Hc)]].
        * exact Hroot.
        * left. exact Hc.
    - injection Hr as <-. left. exact Hcand. }
  unfold resolveWin83.
  destruct (isMaybe r) eqn:Hc; simpl; [| reflexivity].
  destruct Hfix as [Hf | Hf]; [discriminate Hf | rewrite Hf; reflexivity].
Qed.

End Win83Props.

Lemma resolveWin83_fallback_witness :
  isMaybeWin83 sampleTempPrefix "C:\data\a~1\b~1.txt" = true /\
  queryLongPath noLongPath asciiDecode "C:\data\a~1\b~1.txt" = None /\
  resolveWin83 sampleTempPrefix noLongPath asciiDecode 2 dataFS "C:\data\a~1\b~1.txt"
  = Some "C:\data".
Proof.
  assert (Hbelow : forall j : nat, j < 1 ->
             strings.HasPrefix (ancestor (S j) "C:\data\a~1\b~1.txt") (root dataFS) = true /\
             isMaybeWin83 sampleTempPrefix (ancestor (S j) "C:\data\a~1\b~1.txt") = true).
  { intros j Hj. destruct j as [| j]; [split; reflexivity |].
    exfalso. inversion Hj as [| n Hn]. inversion Hn. }
  split; [reflexivity | split; [reflexivity |]].
  exact (proj1 (resolveWin83_fallback sampleTempPrefix noLongPath asciiDecode
                  dataFS "C:\data\a~1\b~1.txt" eq_refl eq_refl)
           1 2 (Nat.lt_succ_diag_r 1) Hbelow eq_refl eq_refl).
Defined.

(** C3, as stated, fails.  The test of the loop is on the bytes of
    the path, not on its directories: with the root [C:\data] and a
    candidate under [C:\database] the walk returns [C:\database],
    which is not inside the root.  And a walk that reaches the root
    need not return it: at the top of a share whose name has a tilde
    the first directory above the path is the root, the root is a
    candidate, and nothing is returned for any number of iterations. *)
Lemma resolveWin83_fallback_leaves_root :
  (isMaybeWin83 sampleTempPrefix "C:\database\x~1\y~1.txt" = true /\
   queryLongPath noLongPath asciiDecode "C:\database\x~1\y~1.txt" = None /\
   resolveWin83 sampleTempPrefix noLongPath asciiDecode 2 dataFS
                "C:\database\x~1\y~1.txt" = Some "C:\database" /\
   insideRoot (root dataFS) "C:\database" = false) /\
  (isMaybeWin83 sampleTempPrefix "\\nas\pub~1\newfil~1.txt" = true /\
   queryLongPath noLongPath asciiDecode "\\nas\pub~1\newfil~1.txt" = None /\
   ancestor 1 "\\nas\pub~1\newfil~1.txt" = root shareFS /\
   isMaybeWin83 sampleTempPrefix (root shareFS) = true /\
   forall fuel : nat,
     resolveWin83 sampleTempPrefix noLongPath asciiDecode fuel shareFS
                  "\\nas\pub~1\newfil~1.txt" <> Some (root shareFS)).
Proof.
  split.
  - repeat split.
  - split; [reflexivity | split; [reflexivity | split; [reflexivity |]]].
    split; [reflexivity |].
    intros fuel.
    assert (Hnone : resolveWin83 sampleTempPrefix noLongPath asciiDecode fuel shareFS
                                 "\\nas\pub~1\newfil~1.txt" = None).
    { unfold resolveWin83.
      replace (isMaybeWin83 sampleTempPrefix "\\nas\pub~1\newfil~1.txt") with true
        by (vm_compute; reflexivity).
      replace (queryLongPath noLongPath asciiDecode "\\nas\pub~1\newfil~1.txt")
        with (@None string) by reflexivity.
      replace (filepath.Dir "\\nas\pub~1\newfil~1.txt") with "\\nas\pub~1\"
        by (vm_compute; reflexivity).
      simpl negb. cbv iota.
      apply walkUp_fixed_point; vm_compute; reflexivity. }
    rewrite Hnone. discriminate.
Qed.

(** On [programFilesOS] the one long path the system gives is no
    candidate, so the system has nothing to give back changed. *)
Lemma programFilesOS_stable (p long : string) :
  queryLongPath programFilesOS asciiDecode p = Some long ->
  isMaybeWin83 sampleTempPrefix long = true ->
  queryLongPath programFilesOS asciiDecode long = Some long.
Proof.
  intros Hq Hl. exfalso.
  unfold queryLongPath, UTF16FromString in Hq.
  destruct (strings.Contains p _); [discriminate Hq |].
  unfold programFilesOS in Hq.
  destruct (String.eqb_spec p "C:\PROGRA~1\sync") as [-> | Hne];
    [| discriminate Hq].
  vm_compute in Hq. injection Hq as <-.
  vm_compute in Hl. discriminate Hl.
Qed.

Lemma resolveWin83_idempotent_on_long_root_witness :
  (isMaybeWin83 sampleTempPrefix (root longRootFS) = false \/
   queryLongPath programFilesOS asciiDecode (root longRootFS) = Some (root longRootFS)) /\
  resolveWin83 sampleTempPrefix programFilesOS asciiDecode 5 longRootFS "C:\PROGRA~1\sync"
  = Some "C:\Program Files\sync" /\
  resolveWin83 sampleTempPrefix programFilesOS asciiDecode 5 longRootFS
               "C:\Program Files\sync"
  = Some "C:\Program Files\sync".
Proof.
  assert (Hroot : isMaybeWin83 sampleTempPrefix (root longRootFS) = false \/
                  queryLongPath programFilesOS asciiDecode (root longRootFS)
                  = Some (root longRootFS))
    by (left; reflexivity).
  assert (Hfirst : resolveWin83 sampleTempPrefix programFilesOS asciiDecode 5
                                longRootFS "C:\PROGRA~1\sync"
                   = Some "C:\Program Files\sync")
    by (vm_compute; reflexivity).
  split; [exact Hroot | split; [exact Hfirst |]].
  exact (resolveWin83_idempotent_on_long_root sampleTempPrefix programFilesOS
           asciiDecode longRootFS programFilesOS_stable Hroot
           5 5 "C:\PROGRA~1\sync" "C:\Program Files\sync" Hfirst).
Defined.

(** C6, as stated, fails: with a root in short form and a file that
    does not exist yet, the first application falls back to the root,
    and the second gets the long path of the root from the system. *)
Lemma resolveWin83_not_idempotent :
  resolveWin83 sampleTempPrefix programFilesOS asciiDecode 5 shortRootFS
               "C:\PROGRA~1\sync\new~1.txt"
  = Some "C:\PROGRA~1\sync" /\
  resolveWin83 sampleTempPrefix programFilesOS asciiDecode 5 shortRootFS
               "C:\PROGRA~1\sync"
  = Some "C:\Program Files\sync" /\
  "C:\PROGRA~1\sync" <> "C:\Program Files\sync".
Proof.
  split; [vm_compute; reflexivity | split; [vm_compute; reflexivity |]].
  discriminate.
Qed.

(** C10: the walk need not end.  For a filesystem at the top of a
    share whose name has a tilde, and a candidate file below it whose
    long path the system does not give, the walk comes to the root of
    the share, which is its own directory, is under the root and is a
    candidate; no number of iterations leaves the loop. *)
Theorem resolveWin83_walk_never_returns :
  filepath.Dir "\\nas\pub~1\" = "\\nas\pub~1\" /\
  isMaybeWin83 sampleTempPrefix "\\nas\pub~1\" = true /\
  forall fuel : nat,
    resolveWin83 sampleTempPrefix noLongPath asciiDecode fuel shareFS
                 "\\nas\pub~1\newfil~1.txt" = None.
Proof.
  assert (Hfix : filepath.Dir "\\nas\pub~1\" = "\\nas\pub~1\")
    by (vm_compute; reflexivity).
  assert (Hcand : isMaybeWin83 sampleTempPrefix "\\nas\pub~1\" = true)
    by (vm_compute; reflexivity).
  split; [exact Hfix | split; [exact Hcand |]].
  intros fuel. unfold resolveWin83.
  replace (isMaybeWin83 sampleTempPrefix "\\nas\pub~1\newfil~1.txt") with true
    by (vm_compute; reflexivity).
  replace (queryLongPath noLongPath asciiDecode "\\nas\pub~1\newfil~1.txt")
    with (@None string) by reflexivity.
  replace (filepath.Dir "\\nas\pub~1\newfil~1.txt") with "\\nas\pub~1\"
    by (vm_compute; reflexivity).
  simpl negb. cbv iota.
  apply walkUp_fixed_point; [exact Hfix | vm_compute; reflexivity | exact Hcand].
Qed.

(** * Further properties of the methods *)

Lemma calls_bind {W A B : Type} (h : handler W) (m : Prog A) (k : A -> Prog B) (w : W) :
  calls h (bind m k) w
  = calls h m w + (let '(a, w') := run h m w in calls h (k a) w').
Proof.
  revert w. induction m as [a | R c k' IH]; intros w; simpl.
  - destruct (k a); reflexivity.
  - destruct (h R c w) as [r w']. rewrite IH.
    destruct (run h (k' r) w'). reflexivity.
Qed.

Lemma allCalls_bind {W A B : Type} (P : forall R : Type, OSCall R -> bool)
      (h : handler W) (m : Prog A) (k : A -> Prog B) (w : W) :
  allCalls P h (bind m k) w
  = allCalls P h m w && (let '(a, w') := run h m w in allCalls P h (k a) w').
Proof.
  revert w. induction m as [a | R c k' IH]; intros w; simpl.
  - reflexivity.
  - destruct (h R c w) as [r w']. rewrite IH.
    destruct (run h (k' r) w'). apply andb_assoc.
Qed.

(** A run on the counting system is the run, with the calls counted. *)
Lemma run_counting {W A : Type} (h : handler W) (m : Prog A) (w : W) (n : nat) :
  run (counting h) m (w, n)
  = (fst (run h m w), (snd (run h m w), n + calls h m w)).
Proof.
  revert w n. induction m as [a | R c k IH]; intros w n; simpl.
  - rewrite Nat.add_0_r. reflexivity.
  - destruct (h R c w) as [r w']. rewrite IH.
    rewrite Nat.add_succ_r. reflexivity.
Qed.

(** ** Attributes *)

Section MoreAttributeProps.

Variable rooted : BasicFilesystem -> string -> result string.

(** X1: a rooted path with a NUL byte in it cannot be handed to the
    system: each of the five attribute operations returns [EINVAL]
    without a system call. *)
Theorem NUL_in_path_returns_at_once
        (f : BasicFilesystem) (name p : string) (attrs : Z) :
  rooted f name = Ok p ->
  strings.Contains p NUL = true ->
  returnsAtOnce (GetFileAttributes rooted f name) (0%Z, Some (SyscallError EINVAL)) /\
  returnsAtOnce (SetFileAttributes rooted f name attrs) (Some (SyscallError EINVAL)) /\
  returnsAtOnce (AddFileAttributes rooted f name attrs) (Some (SyscallError EINVAL)) /\
  returnsAtOnce (Hide rooted f name) (Some (SyscallError EINVAL)) /\
  returnsAtOnce (Unhide rooted f name) (Some (SyscallError EINVAL)).
Proof.
  intros Hr Hnul.
  unfold GetFileAttributes, SetFileAttributes, AddFileAttributes, Hide, Unhide.
  rewrite Hr. unfold UTF16PtrFromString, UTF16FromString.
  fold NUL. rewrite Hnul.
  repeat split; apply returnsAtOnce_Ret.
Qed.

(** X2: when the read of the mask fails, Hide, Unhide and
    AddFileAttributes return the error of the read and write nothing:
    the read is their only system call.  GetFileAttributes hands on
    both results of the read, the mask as well as the error. *)
Theorem failed_read_writes_nothing
        (f : BasicFilesystem) (name p : string) (newAttrs a : Z) (e : error)
        (W : Type) (h : handler W) (w w1 : W) :
  rooted f name = Ok p ->
  UTF16PtrFromString p = Ok p ->
  h _ (SysGetFileAttributes p) w = ((a, Some e), w1) ->
  (run h (Hide rooted f name) w = (Some e, w1) /\
   calls h (Hide rooted f name) w = 1) /\
  (run h (Unhide rooted f name) w = (Some e, w1) /\
   calls h (Unhide rooted f name) w = 1) /\
  (run h (AddFileAttributes rooted f name newAttrs) w = (Some e, w1) /\
   calls h (AddFileAttributes rooted f name newAttrs) w = 1) /\
  run h (GetFileAttributes rooted f name) w = ((a, Some e), w1).
Proof.
  intros Hr Hp Hget.
  unfold Hide, Unhide, AddFileAttributes, GetFileAttributes.
  rewrite Hr, Hp. cbn [run calls]. rewrite Hget.
  repeat split.
Qed.

(** X3: a request whose addable bits are the hidden bit alone is a
    Hide: on every operating system and in every state
    AddFileAttributes runs as Hide does. *)
Theorem AddFileAttributes_hidden_is_Hide
        (f : BasicFilesystem) (name : string) (newAttrs : Z)
        (W : Type) (h : handler W) (w : W) :
  Z.land newAttrs allowedAttrs = FILE_ATTRIBUTE_HIDDEN ->
  run h (AddFileAttributes rooted f name newAttrs) w = run h (Hide rooted f name) w /\
  calls h (AddFileAttributes rooted f name newAttrs) w = calls h (Hide rooted f name) w.
Proof.
  intros Hmask. unfold AddFileAttributes, Hide.
  destruct (rooted f name) as [p | e]; [| split; reflexivity].
  destruct (UTF16PtrFromString p) as [q | e]; [| split; reflexivity].
  cbn [run calls].
  destruct (h _ (SysGetFileAttributes q) w) as [[attrs [e |]] w1];
    [split; reflexivity |].
  cbv zeta. rewrite Hmask. split; reflexivity.
Qed.

(** X4: the five attribute operations address the rooted path only:
    every system call they make is a read or a write of the attributes
    of that path. *)
Theorem attribute_calls_address_rooted_path
        (f : BasicFilesystem) (name p : string) (attrs : Z)
        (W : Type) (h : handler W) (w : W) :
  rooted f name = Ok p ->
  allCalls (onAttributesOf p) h (GetFileAttributes rooted f name) w = true /\
  allCalls (onAttributesOf p) h (SetFileAttributes rooted f name attrs) w = true /\
  allCalls (onAttributesOf p) h (AddFileAttributes rooted f name attrs) w = true /\
  allCalls (onAttributesOf p) h (Hide rooted f name) w = true /\
  allCalls (onAttributesOf p) h (Unhide rooted f name) w = true.
Proof.
  intros Hr.
  unfold GetFileAttributes, SetFileAttributes, AddFileAttributes, Hide, Unhide.
  rewrite Hr. unfold UTF16PtrFromString, UTF16FromString.
  destruct (strings.Contains p _); [repeat split |].
  cbn [allCalls onAttributesOf]. rewrite String.eqb_refl. cbn [andb].
  destruct (h _ (SysGetFileAttributes p) w) as [[cur [e |]] w1];
    destruct (h _ (SysSetFileAttributes p attrs) w) as [r w2];
    cbn [allCalls onAttributesOf]; rewrite ?String.eqb_refl; cbn [andb];
    repeat split;
    repeat match goal with
      | |- context [h ?R ?c ?s] => destruct (h R c s)
      end; reflexivity.
Qed.

End MoreAttributeProps.

Lemma lor_land_union (m a b mask : Z) :
  Z.lor (Z.lor m (Z.land a mask)) (Z.land b mask)
  = Z.lor m (Z.land (Z.lor a b) mask).
Proof.
  rewrite <- Z.lor_assoc. f_equal.
  symmetry. apply Z.land_lor_distr_l.
Qed.

Section StoreProps.

Variable rooted : BasicFilesystem -> string -> result string.

(** How the three writing methods and the reading method run in the
    attribute store on an existing file. *)
Lemma store_run_write
      (f : BasicFilesystem) (name p : string) (m : Z) (w : gmap string Z) :
  rooted f name = Ok p ->
  UTF16PtrFromString p = Ok p ->
  w !! p = Some m ->
  (forall newAttrs : Z,
      run attrStore (AddFileAttributes rooted f name newAttrs) w
      = (None, <[p := Z.lor m (Z.land newAttrs allowedAttrs)]> w)) /\
  run attrStore (Hide rooted f name) w
    = (None, <[p := Z.lor m FILE_ATTRIBUTE_HIDDEN]> w) /\
  run attrStore (Unhide rooted f name) w
    = (None, <[p := Z.ldiff m FILE_ATTRIBUTE_HIDDEN]> w) /\
  (forall attrs : Z,
      run attrStore (SetFileAttributes rooted f name attrs) w
      = (None, <[p := attrs]> w)) /\
  run attrStore (GetFileAttributes rooted f name) w = ((m, None), w).
Proof.
  intros Hr Hp Hw.
  unfold AddFileAttributes, Hide, Unhide, SetFileAttributes, GetFileAttributes.
  rewrite Hr, Hp. cbn [run attrStore]. rewrite Hw. cbn [run attrStore].
  rewrite Hw. repeat split.
Qed.

(** X5: in the attribute store, adding [a] and then [b] to an existing
    file is adding the union of [a] and [b] at once; so adding the
    same mask a second time changes nothing. *)
Theorem AddFileAttributes_twice_is_union
        (f : BasicFilesystem) (name p : string) (a b m : Z) (w : gmap string Z) :
  rooted f name = Ok p ->
  UTF16PtrFromString p = Ok p ->
  w !! p = Some m ->
  run attrStore (thenDo (AddFileAttributes rooted f name a)
                        (AddFileAttributes rooted f name b)) w
  = run attrStore (AddFileAttributes rooted f name (Z.lor a b)) w /\
  run attrStore (thenDo (AddFileAttributes rooted f name a)
                        (AddFileAttributes rooted f name a)) w
  = run attrStore (AddFileAttributes rooted f name a) w.
Proof.
  intros Hr Hp Hw.
  destruct (store_run_write f name p m w Hr Hp Hw) as [Hadd _].
  assert (Hseq : forall c d,
             run attrStore (thenDo (AddFileAttributes rooted f name c)
                                   (AddFileAttributes rooted f name d)) w
             = (None, <[p := Z.lor m (Z.land (Z.lor c d) allowedAttrs)]> w)).
  { intros c d. unfold thenDo. rewrite run_bind, Hadd.
    destruct (store_run_write f name p _ (<[p := Z.lor m (Z.land c allowedAttrs)]> w)
                Hr Hp (lookup_insert_eq _ _ _)) as [Hadd' _].
    rewrite Hadd', insert_insert_eq, lor_land_union. reflexivity. }
  split.
  - rewrite Hseq, Hadd. reflexivity.
  - rewrite Hseq, Hadd, Z.lor_diag. reflexivity.
Qed.

(** X6: a request with none of the three addable bits in it is dropped
    without an error: in the attribute store AddFileAttributes returns
    nil and leaves every mask as it was. *)
Theorem AddFileAttributes_drops_other_bits
        (f : BasicFilesystem) (name p : string) (newAttrs m : Z) (w : gmap string Z) :
  rooted f name = Ok p ->
  UTF16PtrFromString p = Ok p ->
  w !! p = Some m ->
  Z.land newAttrs allowedAttrs = 0%Z ->
  run attrStore (AddFileAttributes rooted f name newAttrs) w = (None, w).
Proof.
  intros Hr Hp Hw Hmask.
  destruct (store_run_write f name p m w Hr Hp Hw) as [Hadd _].
  rewrite Hadd, Hmask, Z.lor_0_r, (insert_id w p m Hw). reflexivity.
Qed.

(** X7: in the attribute store, SetFileAttributes on an existing file
    and then GetFileAttributes gives back the mask that was set, every
    bit of it, whatever the mask was before. *)
Theorem SetFileAttributes_then_Get
        (f : BasicFilesystem) (name p : string) (attrs m : Z) (w : gmap string Z) :
  rooted f name = Ok p ->
  UTF16PtrFromString p = Ok p ->
  w !! p = Some m ->
  run attrStore (thenDo (SetFileAttributes rooted f name attrs)
                        (GetFileAttributes rooted f name)) w
  = ((attrs, None), <[p := attrs]> w).
Proof.
  intros Hr Hp Hw.
  destruct (store_run_write f name p m w Hr Hp Hw) as (_ & _ & _ & Hset & _).
  unfold thenDo. rewrite run_bind, Hset.
  destruct (store_run_write f name p attrs (<[p := attrs]> w)
              Hr Hp (lookup_insert_eq _ _ _)) as (_ & _ & _ & _ & Hget).
  exact Hget.
Qed.

(** X8: in the attribute store Hide and Unhide are idempotent: a
    second Hide after a Hide, and a second Unhide after an Unhide,
    leave the store as the first left it. *)
Theorem Hide_and_Unhide_idempotent
        (f : BasicFilesystem) (name p : string) (m : Z) (w : gmap string Z) :
  rooted f name = Ok p ->
  UTF16PtrFromString p = Ok p ->
  w !! p = Some m ->
  run attrStore (thenDo (Hide rooted f name) (Hide rooted f name)) w
  = run attrStore (Hide rooted f name) w /\
  run attrStore (thenDo (Unhide rooted f name) (Unhide rooted f name)) w
  = run attrStore (Unhide rooted f name) w.
Proof.
  intros Hr Hp Hw.
  destruct (store_run_write f name p m w Hr Hp Hw) as (_ & Hhide & Hunhide & _).
  unfold thenDo. rewrite !run_bind, Hhide, Hunhide.
  destruct (store_run_write f name p _ (<[p := Z.lor m FILE_ATTRIBUTE_HIDDEN]> w)
              Hr Hp (lookup_insert_eq _ _ _)) as (_ & Hhide' & _).
  destruct (store_run_write f name p _ (<[p := Z.ldiff m FILE_ATTRIBUTE_HIDDEN]> w)
              Hr Hp (lookup_insert_eq _ _ _)) as (_ & _ & Hunhide' & _).
  rewrite Hhide', Hunhide', !insert_insert_eq.
  rewrite <- Z.lor_assoc, Z.lor_diag.
  replace (Z.ldiff (Z.ldiff m FILE_ATTRIBUTE_HIDDEN) FILE_ATTRIBUTE_HIDDEN)
    with (Z.ldiff m FILE_ATTRIBUTE_HIDDEN).
  - split; reflexivity.
  - apply Z.bits_inj'. intros i _. rewrite !Z.ldiff_spec.
    destruct (Z.testbit m i), (Z.testbit FILE_ATTRIBUTE_HIDDEN i); reflexivity.
Qed.

End StoreProps.

(** ** mkdirAll *)

Lemma prefix_trans (s1 s2 s3 : string) :
  String.prefix s1 s2 = true -> String.prefix s2 s3 = true ->
  String.prefix s1 s3 = true.
Proof.
  revert s2 s3. induction s1 as [| a s1 IH]; intros s2 s3 H12 H23;
    [destruct s3; reflexivity |].
  destruct s2 as [| b s2]; [discriminate H12 |].
  destruct s3 as [| c s3]; [discriminate H23 |].
  simpl in *.
  destruct (ascii_dec a b) as [-> | _]; [| discriminate H12].
  destruct (ascii_dec b c) as [_ | _]; [| discriminate H23].
  exact (IH s2 s3 H12 H23).
Qed.

Lemma prefix_substring (n : nat) (s : string) :
  String.prefix (String.substring 0 n s) s = true.
Proof.
  revert n. induction s as [| c s IH]; intros n.
  - destruct n; reflexivity.
  - destruct n as [| n]; simpl; [reflexivity |].
    destruct (ascii_dec c c) as [_ | Hne]; [apply IH | contradiction].
Qed.

Lemma length_app_string (s t : string) :
  String.length (s +:+ t) = String.length s + String.length t.
Proof. induction s as [| c s IH]; simpl; [reflexivity | rewrite IH; reflexivity]. Qed.

Lemma byteAt_app_l (s t : string) (i : nat) :
  i < String.length s -> byteAt (s +:+ t) i = byteAt s i.
Proof.
  revert i. induction s as [| c s IH]; intros i Hi; simpl in Hi; [lia |].
  destruct i as [| i]; [reflexivity |].
  unfold byteAt in *. simpl. apply IH. lia.
Qed.

Lemma byteAt_app_last (s : string) (c : ascii) :
  byteAt (s +:+ String c EmptyString) (String.length s) = c.
Proof.
  induction s as [| a s IH]; [reflexivity |].
  unfold byteAt in *. simpl. exact IH.
Qed.

Lemma substring_app_l (s t : string) (n : nat) :
  n <= String.length s ->
  String.substring 0 n (s +:+ t) = String.substring 0 n s.
Proof.
  revert n. induction s as [| c s IH]; intros n Hn; simpl in Hn.
  - replace n with 0 by lia. destruct t; reflexivity.
  - destruct n as [| n]; [reflexivity |].
    simpl. rewrite IH by lia. reflexivity.
Qed.

Section MoreMkdirAllProps.

Variable IsPathSeparator : ascii -> bool.

Lemma mkdirAll_unfold_calls (f : BasicFilesystem) (path : string) (perm : Z)
      (W : Type) (h : handler W) (w : W) :
  calls h (mkdirAll IsPathSeparator f path perm) w
  = calls h (mkdirAllBody IsPathSeparator (mkdirAll IsPathSeparator f) path perm) w.
Proof.
  pose proof (mkdirAll_unfold IsPathSeparator f path perm (W * nat)
                (counting h) (w, 0)) as Hrun.
  rewrite !run_counting in Hrun.
  injection Hrun as _ _ Hcalls. exact Hcalls.
Qed.

(** X9: an error from the creation of the parent is the result of
    [mkdirAll]: the path itself is not made, and no system call
    follows the failed attempt on the parent. *)
Theorem mkdirAll_parent_failure
        (f : BasicFilesystem) (path : string) (perm : Z)
        (W : Type) (h : handler W) (w w0 w1 : W) (e0 e : error) :
  h _ (Stat path) w = (Err e0, w0) ->
  run h (createParent IsPathSeparator (mkdirAll IsPathSeparator f) path perm) w0
    = (Some e, w1) ->
  run h (mkdirAll IsPathSeparator f path perm) w = (Some e, w1) /\
  calls h (mkdirAll IsPathSeparator f path perm) w
  = S (calls h (createParent IsPathSeparator (mkdirAll IsPathSeparator f) path perm) w0).
Proof.
  intros Hstat Hparent. split.
  - rewrite mkdirAll_unfold. unfold mkdirAllBody. cbn [run]. rewrite Hstat.
    rewrite run_bind, Hparent. reflexivity.
  - rewrite mkdirAll_unfold_calls. unfold mkdirAllBody. cbn [calls]. rewrite Hstat.
    rewrite calls_bind, Hparent. cbn [calls]. rewrite Nat.add_0_r. reflexivity.
Qed.

Lemma mkdirAll_nil_inv
        (f : BasicFilesystem) (path : string) (perm : Z)
        (W : Type) (h : handler W) (w w' : W) :
  run h (mkdirAll IsPathSeparator f path perm) w = (None, w') ->
  (exists dir : FileInfo,
      h _ (Stat path) w = (Ok dir, w') /\ IsDir dir = true) \/
  (exists w1 : W, h _ (Mkdir path perm) w1 = (None, w')) \/
  (exists (w2 : W) (dir : FileInfo),
      h _ (Lstat path) w2 = (Ok dir, w') /\ IsDir dir = true).
Proof.
  rewrite mkdirAll_unfold. unfold mkdirAllBody. cbn [run].
  destruct (h _ (Stat path) w) as [[dir | e0] w0] eqn:Hstat.
  - destruct (IsDir dir) eqn:Hd; cbn [run]; intros Hrun; [| discriminate Hrun].
    injection Hrun as <-. left. exists dir. split; [reflexivity | exact Hd].
  - rewrite run_bind.
    destruct (run h (createParent _ _ path perm) w0) as [[e |] w1];
      cbn [run]; [intros Hrun; discriminate Hrun |].
    unfold mkdirDirect. cbn [run].
    destruct (h _ (Mkdir path perm) w1) as [[err |] w2] eqn:Hmk; cbn [run].
    + destruct (h _ (Lstat path) w2) as [[dir | e1] w3] eqn:Hl;
        [destruct (IsDir dir) eqn:Hd |]; cbn [run]; intros Hrun;
        try discriminate Hrun.
      injection Hrun as <-. right. right. exists w2, dir.
      split; [exact Hl | exact Hd].
    + intros Hrun. injection Hrun as <-. right. left. exists w1. exact Hmk.
Qed.

(** X10: [mkdirAll] returns nil only when the system has shown a
    directory at the path or has made one: the first look found a
    directory, or the direct mkdir succeeded, or the second look found
    a directory; the state at the return is the state that call left. *)
Theorem mkdirAll_nil_means_directory
        (f : BasicFilesystem) (path : string) (perm : Z)
        (W : Type) (h : handler W) (w w' : W) :
  run h (mkdirAll IsPathSeparator f path perm) w = (None, w') ->
  (exists dir : FileInfo,
      h _ (Stat path) w = (Ok dir, w') /\ IsDir dir = true) \/
  (exists w1 : W, h _ (Mkdir path perm) w1 = (None, w')) \/
  (exists (w2 : W) (dir : FileInfo),
      h _ (Lstat path) w2 = (Ok dir, w') /\ IsDir dir = true).
Proof.
  exact (mkdirAll_nil_inv f path perm W h w w').
Qed.

Lemma createParent_calls_bound (self : string -> Z -> Prog (option error))
      (path : string) (perm : Z) (W : Type) (h : handler W) (B : nat) :
  (forall (p : string) (w : W), calls h (self p perm) w <= B) ->
  forall w : W, calls h (createParent IsPathSeparator self path perm) w <= B.
Proof.
  intros Hself w. unfold createParent.
  destruct (1 <? _); [| simpl; lia].
  destruct (negb _); [apply Hself | simpl; lia].
Qed.

Lemma mkdirAllBody_calls_bound (self : string -> Z -> Prog (option error))
      (path : string) (perm : Z) (W : Type) (h : handler W) (B : nat) :
  (forall (p : string) (w : W), calls h (self p perm) w <= B) ->
  forall w : W, calls h (mkdirAllBody IsPathSeparator self path perm) w <= 3 + B.
Proof.
  intros Hself w. unfold mkdirAllBody. cbn [calls].
  destruct (h _ (Stat path) w) as [[dir | e0] w0].
  - destruct (IsDir dir); simpl; lia.
  - rewrite calls_bind.
    pose proof (createParent_calls_bound self path perm W h B Hself w0) as Hp.
    destruct (run h (createParent _ self path perm) w0) as [[e |] w1];
      [simpl; lia |].
    unfold mkdirDirect. cbn [calls].
    destruct (h _ (Mkdir path perm) w1) as [[err |] w2]; cbn [calls]; [| lia].
    destruct (h _ (Lstat path) w2) as [[dir | e1] w3];
      [destruct (IsDir dir) |]; simpl; lia.
Qed.

Lemma mkdirAllFuel_calls_bound (perm : Z) (W : Type) (h : handler W) (n : nat) :
  forall (path : string) (w : W),
    calls h (mkdirAllFuel IsPathSeparator n path perm) w <= 3 * S n.
Proof.
  induction n as [| n IH]; intros path w; simpl mkdirAllFuel.
  - pose proof (mkdirAllBody_calls_bound (fun _ _ => Ret None) path perm W h 0
                  (fun _ _ => Nat.le_refl 0) w). lia.
  - pose proof (mkdirAllBody_calls_bound (mkdirAllFuel IsPathSeparator n) path perm
                  W h (3 * S n) IH w). lia.
Qed.

(** X11: [mkdirAll] ends, on every operating system, after at most
    three system calls for each byte of the path and three more. *)
Theorem mkdirAll_calls_bound
        (f : BasicFilesystem) (path : string) (perm : Z)
        (W : Type) (h : handler W) (w : W) :
  calls h (mkdirAll IsPathSeparator f path perm) w <= 3 * S (String.length path).
Proof. apply mkdirAllFuel_calls_bound. Qed.

Lemma createParent_prefix (self : string -> Z -> Prog (option error))
      (path0 path : string) (perm : Z) (W : Type) (h : handler W) :
  (forall (p : string) (w : W),
      String.prefix p path = true ->
      allCalls (onPrefixOf path0) h (self p perm) w = true) ->
  forall w : W,
    allCalls (onPrefixOf path0) h (createParent IsPathSeparator self path perm) w = true.
Proof.
  intros Hself w. unfold createParent.
  destruct (1 <? _); [| reflexivity].
  destruct (negb _); [| reflexivity].
  apply Hself. apply prefix_substring.
Qed.

Lemma mkdirAllFuel_prefix (path0 : string) (perm : Z) (W : Type) (h : handler W)
      (n : nat) :
  forall (path : string) (w : W),
    String.prefix path path0 = true ->
    allCalls (onPrefixOf path0) h (mkdirAllFuel IsPathSeparator n path perm) w = true.
Proof.
  assert (Hbody : forall self path w,
             String.prefix path path0 = true ->
             (forall p w', String.prefix p path = true ->
                           allCalls (onPrefixOf path0) h (self p perm) w' = true) ->
             allCalls (onPrefixOf path0) h
                      (mkdirAllBody IsPathSeparator self path perm) w = true).
  { intros self path w Hpre Hself. unfold mkdirAllBody.
    cbn [allCalls onPrefixOf]. rewrite Hpre. cbn [andb].
    destruct (h _ (Stat path) w) as [[dir | e0] w0].
    - destruct (IsDir dir); reflexivity.
    - rewrite allCalls_bind.
      rewrite (createParent_prefix self path0 path perm W h Hself w0). cbn [andb].
      destruct (run h (createParent _ self path perm) w0) as [[e |] w1];
        [reflexivity |].
      unfold mkdirDirect. cbn [allCalls onPrefixOf]. rewrite Hpre. cbn [andb].
      destruct (h _ (Mkdir path perm) w1) as [[err |] w2]; [| reflexivity].
      cbn [allCalls onPrefixOf]. rewrite Hpre. cbn [andb].
      destruct (h _ (Lstat path) w2) as [[dir | e1] w3];
        [destruct (IsDir dir) |]; reflexivity. }
  induction n as [| n IH]; intros path w Hpre; simpl mkdirAllFuel.
  - apply Hbody; [exact Hpre | reflexivity].
  - apply Hbody; [exact Hpre |].
    intros p w' Hp. apply IH. exact (prefix_trans p path path0 Hp Hpre).
Qed.

(** X12: [mkdirAll] touches nothing but the path and what it is made
    of: every system call it makes is a Stat, an Lstat or a Mkdir of a
    string that is a prefix of the path. *)
Theorem mkdirAll_touches_prefixes_only
        (f : BasicFilesystem) (path : string) (perm : Z)
        (W : Type) (h : handler W) (w : W) :
  allCalls (onPrefixOf path) h (mkdirAll IsPathSeparator f path perm) w = true.
Proof.
  apply mkdirAllFuel_prefix. apply HasPrefix_refl.
Qed.

Lemma skipSeparators_app (path t : string) (i : nat) :
  i <= String.length path ->
  skipSeparators IsPathSeparator (path +:+ t) i = skipSeparators IsPathSeparator path i.
Proof.
  induction i as [| i IH]; intros Hi; simpl; [reflexivity |].
  rewrite byteAt_app_l by lia.
  destruct (IsPathSeparator (byteAt path i)); [apply IH; lia | reflexivity].
Qed.

Lemma scanElement_app (path t : string) (j : nat) :
  j <= String.length path ->
  scanElement IsPathSeparator (path +:+ t) j = scanElement IsPathSeparator path j.
Proof.
  induction j as [| j IH]; intros Hj; simpl; [reflexivity |].
  rewrite byteAt_app_l by lia.
  destruct (negb (IsPathSeparator (byteAt path j))); [apply IH; lia | reflexivity].
Qed.

(** X13: a separator at the end of the path does not change the
    parent: the slow path of [mkdirAll] for [path] followed by a
    separator makes the parent that it makes for [path]. *)
Theorem createParent_trailing_separator
        (self : string -> Z -> Prog (option error))
        (path : string) (c : ascii) (perm : Z) :
  IsPathSeparator c = true ->
  createParent IsPathSeparator self (path +:+ String c EmptyString) perm
  = createParent IsPathSeparator self path perm.
Proof.
  intros Hc.
  assert (Hskip : skipSeparators IsPathSeparator (path +:+ String c EmptyString)
                    (String.length (path +:+ String c EmptyString))
                  = skipSeparators IsPathSeparator path (String.length path)).
  { rewrite length_app_string. simpl String.length. rewrite Nat.add_1_r.
    simpl. rewrite byteAt_app_last, Hc.
    apply skipSeparators_app. lia. }
  unfold createParent. rewrite Hskip.
  pose proof (skipSeparators_le IsPathSeparator path (String.length path)) as Hi.
  set (i := skipSeparators IsPathSeparator path (String.length path)) in *.
  rewrite scanElement_app by lia.
  pose proof (scanElement_le IsPathSeparator path i) as Hj.
  set (j := scanElement IsPathSeparator path i) in *.
  unfold slice. rewrite substring_app_l by lia.
  reflexivity.
Qed.

(** X19: on a system on which directories stay, [mkdirAll] of a path
    for which it has just returned nil returns nil again, with the
    first look as its only system call and the state unchanged. *)
Theorem mkdirAll_again_is_noop
        (f : BasicFilesystem) (path : string) (perm : Z)
        (W : Type) (h : handler W) (w w' : W) :
  directoriesStay h ->
  run h (mkdirAll IsPathSeparator f path perm) w = (None, w') ->
  run h (mkdirAll IsPathSeparator f path perm) w' = (None, w') /\
  calls h (mkdirAll IsPathSeparator f path perm) w' = 1.
Proof.
  intros Hstay Hrun.
  assert (Hdir : exists dir' : FileInfo,
             h _ (Stat path) w' = (Ok dir', w') /\ IsDir dir' = true).
  { destruct (mkdirAll_nil_inv f path perm W h w w' Hrun)
      as [(dir & Hs & Hd) | [(w1 & Hm) | (w2 & dir & Hl & Hd)]].
    - apply (Hstay path w w'). left. exists dir. split; assumption.
    - apply (Hstay path w1 w'). right. left. exists perm. exact Hm.
    - apply (Hstay path w2 w'). right. right. exists dir. split; assumption. }
  destruct Hdir as (dir' & Hs & Hd).
  split.
  - rewrite mkdirAll_unfold. unfold mkdirAllBody. cbn [run].
    rewrite Hs, Hd. reflexivity.
  - rewrite mkdirAll_unfold_calls. unfold mkdirAllBody. cbn [calls].
    rewrite Hs, Hd. reflexivity.
Qed.

End MoreMkdirAllProps.

(** ** Roots *)

Lemma Split_not_nil (s : list ascii) (sep : ascii) : bytes.Split s sep <> [].
Proof.
  destruct s as [| c s]; simpl; [discriminate |].
  destruct (byte_eqb c sep); [discriminate |].
  destruct (bytes.Split s sep); discriminate.
Qed.

Lemma Split_no_sep (s : list ascii) (sep : ascii) :
  Forall (fun part => ~ In sep part) (bytes.Split s sep).
Proof.
  induction s as [| c s IH]; simpl.
  - constructor; [intros [] | constructor].
  - destruct (byte_eqb c sep) eqn:Hc.
    + constructor; [intros [] | exact IH].
    + assert (Hne : c <> sep).
      { intros ->. unfold byte_eqb in Hc. rewrite Ascii.eqb_refl in Hc.
        discriminate Hc. }
      destruct (bytes.Split s sep) as [| part parts].
      * constructor; [| constructor]. intros [H | []]. congruence.
      * inversion IH as [| ? ? Hpart Hparts]; subst.
        constructor; [| exact Hparts].
        intros [H | H]; [congruence | exact (Hpart H)].
Qed.

Lemma Split_join (s : list ascii) (sep : ascii) :
  joinParts (bytes.Split s sep) sep = s.
Proof.
  induction s as [| c s IH]; simpl; [reflexivity |].
  pose proof (Split_not_nil s sep) as Hnil.
  destruct (byte_eqb c sep) eqn:Hc.
  - apply Ascii.eqb_eq in Hc. subst c.
    destruct (bytes.Split s sep) as [| part parts]; [contradiction |].
    simpl in *. rewrite IH. reflexivity.
  - destruct (bytes.Split s sep) as [| part parts]; [contradiction |].
    simpl in *. destruct parts; rewrite <- IH; reflexivity.
Qed.

Lemma collectDrives_well_formed (parts : list (list ascii)) :
  Forall (fun part => ~ In Ascii.zero part) parts ->
  Forall wellFormedDrive (collectDrives parts).
Proof.
  induction 1 as [| part parts Hpart _ IH]; [constructor |].
  destruct part as [| c part]; [constructor |].
  change (collectDrives ((c :: part) :: parts))
    with (stringOfBytes (c :: part) :: collectDrives parts).
  constructor; [| exact IH].
  split; [discriminate |].
  unfold stringOfBytes. rewrite list_ascii_of_string_of_list_ascii. exact Hpart.
Qed.

Lemma collectDrives_front (parts : list (list ascii)) :
  parts <> [] ->
  exists rest : list ascii,
    joinParts parts Ascii.zero ++ [Ascii.zero]
    = terminated (collectDrives parts) ++ rest.
Proof.
  induction parts as [| part parts IH]; intros Hnil; [contradiction |].
  destruct part as [| c part].
  - simpl collectDrives. eexists. reflexivity.
  - change (collectDrives ((c :: part) :: parts))
      with (stringOfBytes (c :: part) :: collectDrives parts).
    unfold terminated. cbn [map concat]. fold (terminated (collectDrives parts)).
    unfold stringOfBytes. rewrite list_ascii_of_string_of_list_ascii.
    destruct parts as [| part' parts].
    + exists []. change (collectDrives []) with (@nil string).
      unfold terminated. cbn [map concat joinParts].
      rewrite !app_nil_r. reflexivity.
    + destruct (IH ltac:(discriminate)) as [rest Hrest].
      exists rest.
      change (joinParts ((c :: part) :: part' :: parts) Ascii.zero)
        with ((c :: part) ++ Ascii.zero :: joinParts (part' :: parts) Ascii.zero).
      rewrite <- !app_assoc. f_equal.
      change ([Ascii.zero] ++ terminated (collectDrives (part' :: parts)) ++ rest)
        with (Ascii.zero :: (terminated (collectDrives (part' :: parts)) ++ rest)).
      rewrite <- Hrest. reflexivity.
Qed.

(** X14: whatever the system writes into the buffer, every drive
    string that [Roots] returns without an error is not empty and has
    no NUL byte in it. *)
Theorem Roots_drives_well_formed
        (f : BasicFilesystem) (W : Type) (h : handler W) (w w' : W)
        (drives : list string) :
  run h (Roots f) w = ((drives, None), w') ->
  Forall wellFormedDrive drives.
Proof.
  unfold Roots. cbn [run].
  destruct (h _ (LoadDLL _) w) as [[dll | e] w1]; cbn [run];
    [| intros Hrun; discriminate Hrun].
  destruct (h _ (FindProc dll _) w1) as [[proc | e] w2]; cbn [run];
    [| intros Hrun; discriminate Hrun].
  destruct (h _ (ProcCall proc _ _) w2) as [[hr buffer] w3].
  destruct (hr =? 0)%Z; cbn [run]; intros Hrun; [discriminate Hrun |].
  injection Hrun as <- _.
  apply collectDrives_well_formed, Split_no_sep.
Qed.

(** X15: the drive strings that [Roots] returns are read off the front
    of the buffer: the strings, each with a NUL after it, one after
    the other, are the beginning of the buffer followed by a NUL. *)
Theorem Roots_drives_are_front_of_buffer
        (f : BasicFilesystem) (W : Type) (h : handler W) (w w1 w2 w3 : W)
        (dll proc hr : Z) (buffer : list ascii) :
  h _ (LoadDLL "kernel32.dll") w = (Ok dll, w1) ->
  h _ (FindProc dll "GetLogicalDriveStringsA") w1 = (Ok proc, w2) ->
  h _ (ProcCall proc bufferLen emptyBuffer) w2 = ((hr, buffer), w3) ->
  hr <> 0%Z ->
  exists (drives : list string) (rest : list ascii),
    run h (Roots f) w = ((drives, None), w3) /\
    buffer ++ [Ascii.zero] = terminated drives ++ rest.
Proof.
  intros Hload Hfind Hcall Hhr.
  destruct (collectDrives_front (bytes.Split buffer Ascii.zero)
              (Split_not_nil buffer Ascii.zero)) as [rest Hrest].
  rewrite Split_join in Hrest.
  exists (collectDrives (bytes.Split buffer Ascii.zero)), rest.
  split; [| exact Hrest].
  unfold Roots. cbn [run]. rewrite Hload. cbn [run]. rewrite Hfind.
  cbn [run]. rewrite Hcall.
  apply Z.eqb_neq in Hhr. rewrite Hhr. reflexivity.
Qed.

(** ** Short names *)

Lemma HasPrefix_app (p r : string) : strings.HasPrefix (p +:+ r) p = true.
Proof.
  unfold strings.HasPrefix.
  induction p as [| c p IH]; simpl; [destruct r; reflexivity |].
  destruct (ascii_dec c c) as [_ | Hne]; [exact IH | contradiction].
Qed.

Lemma substring_all (s : string) : String.substring 0 (String.length s) s = s.
Proof. induction s as [| c s IH]; simpl; [reflexivity | rewrite IH; reflexivity]. Qed.

Lemma sliceFrom_app (p r : string) : sliceFrom (p +:+ r) (String.length p) = r.
Proof.
  unfold sliceFrom.
  induction p as [| c p IH]; simpl.
  - rewrite Nat.sub_0_r. apply substring_all.
  - exact IH.
Qed.

Section MoreWin83Props.

Variable WindowsTempPrefix : string.
Variable GetLongPathName : string -> Z -> result (Z * list Z).
Variable utf16Decode : list Z -> string.

Local Abbreviation isMaybe := (isMaybeWin83 WindowsTempPrefix).
Local Abbreviation query := (queryLongPath GetLongPathName utf16Decode).
Local Abbreviation walk := (walkUp WindowsTempPrefix).
Local Abbreviation resolve := (resolveWin83 WindowsTempPrefix GetLongPathName utf16Decode).

(** X16: a path without a tilde is returned as it is: it is no
    candidate, the system is not asked and the walk is not entered,
    whatever the root is. *)
Theorem resolveWin83_without_tilde
        (f : BasicFilesystem) (absPath : string) (fuel : nat) :
  strings.Contains absPath "~" = false ->
  isMaybe absPath = false /\
  resolve fuel f absPath = Some absPath.
Proof.
  intros Hno.
  assert (Hc : isMaybe absPath = false)
    by (unfold isMaybeWin83; rewrite Hno; reflexivity).
  split; [exact Hc |].
  unfold resolveWin83. rewrite Hc. reflexivity.
Qed.

(** X17: the tilde of the prefix of temporary files does not make a
    candidate: a path in a directory without a tilde, whose last
    element is [WindowsTempPrefix] followed by a name without a tilde,
    is no candidate and is returned as it is. *)
Theorem temporary_name_is_no_candidate
        (f : BasicFilesystem) (absPath rest : string) (fuel : nat) :
  strings.Contains (filepath.Dir absPath) "~" = false ->
  filepath.Base absPath = WindowsTempPrefix +:+ rest ->
  strings.Contains rest "~" = false ->
  isMaybe absPath = false /\
  resolve fuel f absPath = Some absPath.
Proof.
  intros Hdir Hbase Hrest.
  assert (Hc : isMaybe absPath = false).
  { unfold isMaybeWin83.
    destruct (strings.Contains absPath "~"); [| reflexivity].
    cbn [negb]. rewrite Hdir, Hbase.
    unfold strings.TrimPrefix. rewrite HasPrefix_app, sliceFrom_app.
    exact Hrest. }
  split; [exact Hc |].
  unfold resolveWin83. rewrite Hc. reflexivity.
Qed.

Lemma walkUp_more_fuel (f : BasicFilesystem) (fuel : nat) :
  forall (fuel' : nat) (p r : string),
    fuel <= fuel' ->
    walk fuel f p = Some r ->
    walk fuel' f p = Some r.
Proof.
  induction fuel as [| fuel IH]; intros fuel' p r Hle Hw; [discriminate Hw |].
  destruct fuel' as [| fuel']; [lia |].
  simpl in *.
  destruct (strings.HasPrefix p (root f)); [| exact Hw].
  destruct (negb (isMaybe p)); [exact Hw |].
  apply (IH fuel' _ _ ltac:(lia) Hw).
Qed.

(** A result of [resolveWin83] does not depend on how many iterations
    the loop was given: when the method returns within [fuel]
    iterations, it returns the same path within any larger number of
    them. *)
Theorem resolveWin83_more_fuel
        (f : BasicFilesystem) (absPath r : string) (fuel fuel' : nat) :
  fuel <= fuel' ->
  resolve fuel f absPath = Some r ->
  resolve fuel' f absPath = Some r.
Proof.
  intros Hle. unfold resolveWin83.
  destruct (negb (isMaybe absPath)); [exact id |].
  destruct (query absPath); [exact id |].
  apply walkUp_more_fuel. exact Hle.
Qed.

Lemma walkUp_returns (f : BasicFilesystem) (k : nat) :
  forall p : string,
    strings.HasPrefix (ancestor k p) (root f) = false \/
    isMaybe (ancestor k p) = false ->
    exists r : string, walk (S k) f p = Some r.
Proof.
  induction k as [| k IH]; intros p Hk.
  - simpl in *. destruct (strings.HasPrefix p (root f)); [| eauto].
    destruct Hk as [Hk | Hk]; [discriminate Hk |].
    rewrite Hk. eauto.
  - change (walk (S (S k)) f p) with
      (if strings.HasPrefix p (root f)
       then if negb (isMaybe p) then Some p
            else walk (S k) f (filepath.Dir p)
       else Some (root f)).
    destruct (strings.HasPrefix p (root f)); [| eauto].
    destruct (negb (isMaybe p)); [eauto |].
    apply IH. exact Hk.
Qed.

Lemma walkUp_returned (f : BasicFilesystem) (fuel : nat) :
  forall (p r : string),
    walk fuel f p = Some r ->
    exists k : nat,
      k < fuel /\
      (strings.HasPrefix (ancestor k p) (root f) = false \/
       isMaybe (ancestor k p) = false).
Proof.
  induction fuel as [| fuel IH]; intros p r Hw; [discriminate Hw |].
  simpl in Hw.
  destruct (strings.HasPrefix p (root f)) eqn:Hpre.
  - destruct (isMaybe p) eqn:Hc; simpl in Hw.
    + destruct (IH _ _ Hw) as (k & Hk & Hstop).
      exists (S k). split; [lia | exact Hstop].
    + exists 0. split; [lia | right; exact Hc].
  - exists 0. split; [lia | left; exact Hpre].
Qed.

(** X18: for a candidate whose long path the system does not give,
    [resolveWin83] returns if and only if some directory above the
    path is not under the root or is no candidate; it then returns
    within as many iterations as that directory is levels up. *)
Theorem resolveWin83_returns_iff
        (f : BasicFilesystem) (absPath : string) :
  isMaybe absPath = true ->
  query absPath = None ->
  ((exists (fuel : nat) (r : string), resolve fuel f absPath = Some r) <->
   (exists k : nat,
       strings.HasPrefix (ancestor (S k) absPath) (root f) = false \/
       isMaybe (ancestor (S k) absPath) = false)) /\
  (forall k : nat,
      strings.HasPrefix (ancestor (S k) absPath) (root f) = false \/
      isMaybe (ancestor (S k) absPath) = false ->
      exists r : string, resolve (S k) f absPath = Some r).
Proof.
  intros Hcand Hquery.
  assert (Hres : forall fuel,
             resolve fuel f absPath = walk fuel f (filepath.Dir absPath)).
  { intros fuel. unfold resolveWin83. rewrite Hcand, Hquery. reflexivity. }
  assert (Hk : forall k : nat,
             strings.HasPrefix (ancestor (S k) absPath) (root f) = false \/
             isMaybe (ancestor (S k) absPath) = false ->
             exists r : string, resolve (S k) f absPath = Some r).
  { intros k Hstop. rewrite Hres. apply walkUp_returns. exact Hstop. }
  split; [split |].
  - intros (fuel & r & Hr). rewrite Hres in Hr.
    destruct (walkUp_returned f fuel _ _ Hr) as (k & _ & Hstop).
    exists k. exact Hstop.
  - intros (k & Hstop). destruct (Hk k Hstop) as [r Hr].
    exists (S k), r. exact Hr.
  - exact Hk.
Qed.

End MoreWin83Props.

(** ** Concrete runs of the further properties *)

Lemma NUL_in_path_returns_at_once_witness :
  sampleRooted dataFS nulName = Ok ("C:\data\a" +:+ NUL) /\
  strings.Contains ("C:\data\a" +:+ NUL) NUL = true /\
  returnsAtOnce (Hide sampleRooted dataFS nulName) (Some (SyscallError EINVAL)).
Proof.
  split; [reflexivity | split; [reflexivity |]].
  exact (proj1 (proj2 (proj2 (proj2
    (NUL_in_path_returns_at_once sampleRooted dataFS nulName
       ("C:\data\a" +:+ NUL) 0 eq_refl eq_refl))))).
Defined.

Lemma failed_read_writes_nothing_witness :
  sampleRooted dataFS "a.txt" = Ok "C:\data\a.txt" /\
  UTF16PtrFromString "C:\data\a.txt" = Ok "C:\data\a.txt" /\
  deniedOS _ (SysGetFileAttributes "C:\data\a.txt") tt
    = ((INVALID_FILE_ATTRIBUTES, Some (SyscallError (WinErrno 5))), tt) /\
  run deniedOS (AddFileAttributes sampleRooted dataFS "a.txt" 2) tt
    = (Some (SyscallError (WinErrno 5)), tt) /\
  calls deniedOS (AddFileAttributes sampleRooted dataFS "a.txt" 2) tt = 1.
Proof.
  split; [reflexivity | split; [reflexivity | split; [reflexivity |]]].
  exact (proj1 (proj2 (proj2
    (failed_read_writes_nothing sampleRooted dataFS "a.txt" "C:\data\a.txt" 2
       INVALID_FILE_ATTRIBUTES (SyscallError (WinErrno 5)) unit deniedOS tt tt
       eq_refl eq_refl eq_refl)))).
Defined.

Lemma AddFileAttributes_hidden_is_Hide_witness :
  Z.land 0x23 allowedAttrs = FILE_ATTRIBUTE_HIDDEN /\
  run attrStore (AddFileAttributes sampleRooted dataFS "a.txt" 0x23) (dataStore 0x20)
  = run attrStore (Hide sampleRooted dataFS "a.txt") (dataStore 0x20).
Proof.
  split; [reflexivity |].
  exact (proj1 (AddFileAttributes_hidden_is_Hide sampleRooted dataFS "a.txt" 0x23
                  (gmap string Z) attrStore (dataStore 0x20) eq_refl)).
Defined.

Lemma attribute_calls_address_rooted_path_witness :
  sampleRooted dataFS "a.txt" = Ok "C:\data\a.txt" /\
  allCalls (onAttributesOf "C:\data\a.txt") attrStore
           (Unhide sampleRooted dataFS "a.txt") (dataStore 2) = true.
Proof.
  split; [reflexivity |].
  exact (proj2 (proj2 (proj2 (proj2
    (attribute_calls_address_rooted_path sampleRooted dataFS "a.txt" "C:\data\a.txt"
       0 (gmap string Z) attrStore (dataStore 2) eq_refl))))).
Defined.

Lemma AddFileAttributes_twice_is_union_witness :
  sampleRooted dataFS "a.txt" = Ok "C:\data\a.txt" /\
  UTF16PtrFromString "C:\data\a.txt" = Ok "C:\data\a.txt" /\
  dataStore 0x20 !! "C:\data\a.txt" = Some 0x20%Z /\
  run attrStore (thenDo (AddFileAttributes sampleRooted dataFS "a.txt" 2)
                        (AddFileAttributes sampleRooted dataFS "a.txt" 4))
      (dataStore 0x20)
  = run attrStore (AddFileAttributes sampleRooted dataFS "a.txt" 6) (dataStore 0x20).
Proof.
  split; [reflexivity | split; [reflexivity | split; [apply dataStore_lookup |]]].
  exact (proj1 (AddFileAttributes_twice_is_union sampleRooted dataFS "a.txt"
                  "C:\data\a.txt" 2 4 0x20 (dataStore 0x20)
                  eq_refl eq_refl (dataStore_lookup 0x20))).
Defined.

Lemma AddFileAttributes_drops_other_bits_witness :
  sampleRooted dataFS "a.txt" = Ok "C:\data\a.txt" /\
  UTF16PtrFromString "C:\data\a.txt" = Ok "C:\data\a.txt" /\
  dataStore 0x20 !! "C:\data\a.txt" = Some 0x20%Z /\
  Z.land 0x81 allowedAttrs = 0%Z /\
  run attrStore (AddFileAttributes sampleRooted dataFS "a.txt" 0x81) (dataStore 0x20)
  = (None, dataStore 0x20).
Proof.
  split; [reflexivity | split; [reflexivity | split; [apply dataStore_lookup |]]].
  split; [reflexivity |].
  exact (AddFileAttributes_drops_other_bits sampleRooted dataFS "a.txt"
           "C:\data\a.txt" 0x81 0x20 (dataStore 0x20)
           eq_refl eq_refl (dataStore_lookup 0x20) eq_refl).
Defined.

Lemma SetFileAttributes_then_Get_witness :
  sampleRooted dataFS "a.txt" = Ok "C:\data\a.txt" /\
  UTF16PtrFromString "C:\data\a.txt" = Ok "C:\data\a.txt" /\
  dataStore 0x26 !! "C:\data\a.txt" = Some 0x26%Z /\
  run attrStore (thenDo (SetFileAttributes sampleRooted dataFS "a.txt" 0x80)
                        (GetFileAttributes sampleRooted dataFS "a.txt"))
      (dataStore 0x26)
  = ((0x80%Z, None), <["C:\data\a.txt" := 0x80%Z]> (dataStore 0x26)).
Proof.
  split; [reflexivity | split; [reflexivity | split; [apply dataStore_lookup |]]].
  exact (SetFileAttributes_then_Get sampleRooted dataFS "a.txt"
           "C:\data\a.txt" 0x80 0x26 (dataStore 0x26)
           eq_refl eq_refl (dataStore_lookup 0x26)).
Defined.

Lemma Hide_and_Unhide_idempotent_witness :
  sampleRooted dataFS "a.txt" = Ok "C:\data\a.txt" /\
  UTF16PtrFromString "C:\data\a.txt" = Ok "C:\data\a.txt" /\
  dataStore 0x20 !! "C:\data\a.txt" = Some 0x20%Z /\
  run attrStore (thenDo (Hide sampleRooted dataFS "a.txt")
                        (Hide sampleRooted dataFS "a.txt")) (dataStore 0x20)
  = run attrStore (Hide sampleRooted dataFS "a.txt") (dataStore 0x20).
Proof.
  split; [reflexivity | split; [reflexivity | split; [apply dataStore_lookup |]]].
  exact (proj1 (Hide_and_Unhide_idempotent sampleRooted dataFS "a.txt"
                  "C:\data\a.txt" 0x20 (dataStore 0x20)
                  eq_refl eq_refl (dataStore_lookup 0x20))).
Defined.

Lemma mkdirAll_parent_failure_witness :
  deniedOS _ (Stat "C:\a\b") tt
    = (Err (SyscallError ERROR_CALL_NOT_IMPLEMENTED), tt) /\
  run deniedOS (createParent filepath.isSlash (mkdirAll filepath.isSlash dataFS)
                             "C:\a\b" 493) tt
    = (Some (PathError "mkdir" "C:\a" (WinErrno 5)), tt) /\
  run deniedOS (mkdirAll filepath.isSlash dataFS "C:\a\b" 493) tt
    = (Some (PathError "mkdir" "C:\a" (WinErrno 5)), tt).
Proof.
  split; [reflexivity | split; [reflexivity |]].
  exact (proj1 (mkdirAll_parent_failure filepath.isSlash dataFS "C:\a\b" 493
                  unit deniedOS tt tt tt
                  (SyscallError ERROR_CALL_NOT_IMPLEMENTED)
                  (PathError "mkdir" "C:\a" (WinErrno 5)) eq_refl eq_refl)).
Defined.

Lemma mkdirAll_nil_means_directory_witness :
  run racedOS (mkdirAll filepath.isSlash dataFS "C:\d" 493) tt = (None, tt) /\
  ((exists dir : FileInfo,
       racedOS _ (Stat "C:\d") tt = (Ok dir, tt) /\ IsDir dir = true) \/
   (exists w1 : unit, racedOS _ (Mkdir "C:\d" 493) w1 = (None, tt)) \/
   (exists (w2 : unit) (dir : FileInfo),
       racedOS _ (Lstat "C:\d") w2 = (Ok dir, tt) /\ IsDir dir = true)).
Proof.
  split; [reflexivity |].
  exact (mkdirAll_nil_means_directory filepath.isSlash dataFS "C:\d" 493
           unit racedOS tt tt eq_refl).
Defined.

Lemma createParent_trailing_separator_witness :
  filepath.isSlash "\"%char = true /\
  createParent filepath.isSlash (mkdirAll filepath.isSlash dataFS) "C:\a\b\" 493
  = createParent filepath.isSlash (mkdirAll filepath.isSlash dataFS) "C:\a\b" 493.
Proof.
  split; [reflexivity |].
  exact (createParent_trailing_separator filepath.isSlash
           (mkdirAll filepath.isSlash dataFS) "C:\a\b" "\"%char 493 eq_refl).
Defined.

Lemma Roots_drives_well_formed_witness :
  run drivesOS (Roots dataFS) tt = ((["C:\"; "D:\"], None), tt) /\
  Forall wellFormedDrive ["C:\"; "D:\"].
Proof.
  split; [reflexivity |].
  exact (Roots_drives_well_formed dataFS unit drivesOS tt tt ["C:\"; "D:\"] eq_refl).
Defined.

Lemma Roots_drives_are_front_of_buffer_witness :
  drivesOS _ (LoadDLL "kernel32.dll") tt = (Ok 1%Z, tt) /\
  drivesOS _ (FindProc 1 "GetLogicalDriveStringsA") tt = (Ok 2%Z, tt) /\
  drivesOS _ (ProcCall 2 bufferLen emptyBuffer) tt
    = ((8%Z, multiString twoDrives ++ repeat Ascii.zero 1015), tt) /\
  8%Z <> 0%Z /\
  exists (drives : list string) (rest : list ascii),
    run drivesOS (Roots dataFS) tt = ((drives, None), tt) /\
    (multiString twoDrives ++ repeat Ascii.zero 1015) ++ [Ascii.zero]
    = terminated drives ++ rest.
Proof.
  assert (H8 : 8%Z <> 0%Z) by discriminate.
  repeat (split; [reflexivity || exact H8 |]).
  exact (Roots_drives_are_front_of_buffer dataFS unit drivesOS tt tt tt tt 1 2 8
           (multiString twoDrives ++ repeat Ascii.zero 1015)
           eq_refl eq_refl eq_refl H8).
Defined.

Lemma resolveWin83_without_tilde_witness :
  strings.Contains "C:\data\a.txt" "~" = false /\
  resolveWin83 sampleTempPrefix programFilesOS asciiDecode 0 dataFS "C:\data\a.txt"
  = Some "C:\data\a.txt".
Proof.
  split; [reflexivity |].
  exact (proj2 (resolveWin83_without_tilde sampleTempPrefix programFilesOS
                  asciiDecode dataFS "C:\data\a.txt" 0 eq_refl)).
Defined.

Lemma temporary_name_is_no_candidate_witness :
  strings.Contains (filepath.Dir "C:\data\~syncthing~a.txt.tmp") "~" = false /\
  filepath.Base "C:\data\~syncthing~a.txt.tmp" = sampleTempPrefix +:+ "a.txt.tmp" /\
  strings.Contains "a.txt.tmp" "~" = false /\
  isMaybeWin83 sampleTempPrefix "C:\data\~syncthing~a.txt.tmp" = false.
Proof.
  split; [reflexivity | split; [reflexivity | split; [reflexivity |]]].
  exact (proj1 (temporary_name_is_no_candidate sampleTempPrefix noLongPath
                  asciiDecode dataFS "C:\data\~syncthing~a.txt.tmp" "a.txt.tmp" 0
                  eq_refl eq_refl eq_refl)).
Defined.

Lemma resolveWin83_more_fuel_witness :
  2 <= 7 /\
  resolveWin83 sampleTempPrefix noLongPath asciiDecode 2 dataFS "C:\data\a~1\b~1.txt"
  = Some "C:\data" /\
  resolveWin83 sampleTempPrefix noLongPath asciiDecode 7 dataFS "C:\data\a~1\b~1.txt"
  = Some "C:\data".
Proof.
  assert (Hle : 2 <= 7) by (repeat constructor).
  split; [exact Hle | split; [reflexivity |]].
  exact (resolveWin83_more_fuel sampleTempPrefix noLongPath asciiDecode dataFS
           "C:\data\a~1\b~1.txt" "C:\data" 2 7 Hle eq_refl).
Defined.

Lemma resolveWin83_returns_iff_witness :
  isMaybeWin83 sampleTempPrefix "C:\data\a~1\b~1.txt" = true /\
  queryLongPath noLongPath asciiDecode "C:\data\a~1\b~1.txt" = None /\
  isMaybeWin83 sampleTempPrefix (ancestor 2 "C:\data\a~1\b~1.txt") = false /\
  exists r : string,
    resolveWin83 sampleTempPrefix noLongPath asciiDecode 2 dataFS "C:\data\a~1\b~1.txt"
    = Some r.
Proof.
  split; [reflexivity | split; [reflexivity | split; [reflexivity |]]].
  exact (proj2 (resolveWin83_returns_iff sampleTempPrefix noLongPath asciiDecode
                  dataFS "C:\data\a~1\b~1.txt" eq_refl eq_refl)
           1 (or_intror eq_refl)).
Defined.

Lemma dirSetOS_directoriesStay : directoriesStay dirSetOS.
Proof.
  intros p s s' H.
  assert (Hin : p ∈ s').
  { destruct H as [(dir & Hs & _) | [(perm & Hm) | (dir & Hl & _)]];
      simpl in *; destruct (decide (p ∈ s)) as [Hp | Hp];
      try discriminate;
      try (injection Hs as _ <-; exact Hp);
      try (injection Hl as _ <-; exact Hp).
    injection Hm as <-. set_solver. }
  exists (mkFileInfo true). simpl.
  destruct (decide (p ∈ s')) as [_ | Hn]; [split; reflexivity | contradiction].
Qed.

Lemma mkdirAll_again_is_noop_witness :
  directoriesStay dirSetOS /\
  run dirSetOS (mkdirAll filepath.isSlash dataFS "C:\a\b" 493) ∅
    = (None, {["C:\a\b"]} ∪ ({["C:\a"]} ∪ ∅)) /\
  run dirSetOS (mkdirAll filepath.isSlash dataFS "C:\a\b" 493)
      ({["C:\a\b"]} ∪ ({["C:\a"]} ∪ ∅))
    = (None, {["C:\a\b"]} ∪ ({["C:\a"]} ∪ ∅)).
Proof.
  assert (Hfirst : run dirSetOS (mkdirAll filepath.isSlash dataFS "C:\a\b" 493) ∅
                   = (None, {["C:\a\b"]} ∪ ({["C:\a"]} ∪ ∅)))
    by (vm_compute; reflexivity).
  split; [exact dirSetOS_directoriesStay | split; [exact Hfirst |]].
  exact (proj1 (mkdirAll_again_is_noop filepath.isSlash dataFS "C:\a\b" 493
                  (gset string) dirSetOS ∅ _ dirSetOS_directoriesStay Hfirst)).
Defined.
